(** * sigprof: signal-triggered profiling

    A shallow embedding of [sigprof/sigprof.go].  The package's own code
    (the dispatcher [loop] / [profileSignal] / [profile], the sink factory
    [newWriter] and the engine [pprofiler]) is written in a small monad [M]
    that threads the process state and records every call that leaves the
    package.  What the package calls but does not define (os, ioutil, log,
    runtime/pprof, time, the go statement) is modelled below as plain
    state transformers over [World]. *)

From Stdlib Require Import String Ascii List ZArith Bool Lia PeanoNat DecimalString.
Import ListNotations.
Open Scope string_scope.

(** ** Values *)

(** A Go [error] is represented by its message; [None] is [nil]. *)
Definition error := string.

(** [*os.File]: a descriptor number and the name it was opened with. *)
Record File := mkFile { fd : nat; Name : string }.

(** Any other implementation of [io.WriteCloser] handed to the package
    (the tests use a [bufferCloser]); it is described by what its [Write]
    and [Close] methods answer. *)
Record foreignWriter := mkForeign {
  fw_id : nat;
  fw_Write : option error;
  fw_Close : option error
}.

(** [io.WriteCloser], by dynamic type. *)
Inductive WriteCloser :=
| W_stderrWriter
| W_stdoutWriter
| W_File (f : File)
| W_foreign (o : foreignWriter).

Definition outputType := string.
Definition stdoutOutput : outputType := "stdout".
Definition stderrOutput : outputType := "stderr".
Definition fileOutput : outputType := "file".

(** [os.Signal] values are [syscall.Signal] numbers (linux). *)
Definition Signal := Z.
Definition SIGHUP : Signal := 1%Z.
Definition SIGUSR1 : Signal := 10%Z.
Definition SIGUSR2 : Signal := 12%Z.

(** The closure started by the go statement of [cpuProfile]; it captures
    the sink [w]. *)
Inductive Goroutine :=
| G_cpuProfile_func1 (w : WriteCloser).

(** [*pprof.Profile]: a name and the text [WriteTo] renders. *)
Record Profile := mkProfile { prof_name : string; prof_dump : string }.

(** ** Process state *)

Record World := mkWorld {
  files : list (string * string);      (* existing paths and their contents *)
  fdtable : list (nat * string);       (* open descriptors *)
  tmp_writable : bool;                 (* can os.TempDir() take a new file *)
  tmp_seed : nat;                      (* source of TempFile's suffix *)
  args0 : string;                      (* os.Args[0] *)
  logged : list string;                (* lines printed by package log *)
  registry : list Profile;             (* profiles known to runtime/pprof *)
  cpu : option WriteCloser;            (* sink of the running CPU profile *)
  goroutines : list Goroutine;         (* started, not yet run *)
  now : Z;                             (* clock, nanoseconds *)
  cpuProfileDuration : Z               (* package variable, nanoseconds *)
}.

Definition set_files (x : list (string * string)) (W : World) : World :=
  mkWorld x (fdtable W) (tmp_writable W) (tmp_seed W) (args0 W) (logged W)
          (registry W) (cpu W) (goroutines W) (now W) (cpuProfileDuration W).
Definition set_fdtable (x : list (nat * string)) (W : World) : World :=
  mkWorld (files W) x (tmp_writable W) (tmp_seed W) (args0 W) (logged W)
          (registry W) (cpu W) (goroutines W) (now W) (cpuProfileDuration W).
Definition set_tmp_seed (x : nat) (W : World) : World :=
  mkWorld (files W) (fdtable W) (tmp_writable W) x (args0 W) (logged W)
          (registry W) (cpu W) (goroutines W) (now W) (cpuProfileDuration W).
Definition set_logged (x : list string) (W : World) : World :=
  mkWorld (files W) (fdtable W) (tmp_writable W) (tmp_seed W) (args0 W) x
          (registry W) (cpu W) (goroutines W) (now W) (cpuProfileDuration W).
Definition set_cpu (x : option WriteCloser) (W : World) : World :=
  mkWorld (files W) (fdtable W) (tmp_writable W) (tmp_seed W) (args0 W) (logged W)
          (registry W) x (goroutines W) (now W) (cpuProfileDuration W).
Definition set_goroutines (x : list Goroutine) (W : World) : World :=
  mkWorld (files W) (fdtable W) (tmp_writable W) (tmp_seed W) (args0 W) (logged W)
          (registry W) (cpu W) x (now W) (cpuProfileDuration W).
Definition set_now (x : Z) (W : World) : World :=
  mkWorld (files W) (fdtable W) (tmp_writable W) (tmp_seed W) (args0 W) (logged W)
          (registry W) (cpu W) (goroutines W) x (cpuProfileDuration W).

(** [Ext A]: the behaviour of something the package calls. *)
Definition Ext (A : Type) := World -> A * World.

(** ** The operating system and the libraries *)

Module Os.

Definition Stdout : File := mkFile 1 "/dev/stdout".
Definition Stderr : File := mkFile 2 "/dev/stderr".

Definition exists_path (p : string) (W : World) : bool :=
  existsb (fun e => String.eqb (fst e) p) (files W).

Definition is_open (n : nat) (W : World) : bool :=
  existsb (fun e => Nat.eqb (fst e) n) (fdtable W).

Definition path_of (n : nat) (W : World) : option string :=
  option_map snd (find (fun e => Nat.eqb (fst e) n) (fdtable W)).

Definition append_to (p data : string) (fs : list (string * string)) :=
  map (fun e => if String.eqb (fst e) p then (fst e, snd e ++ data) else e) fs.

(** [Write] of [*os.File]: fails on a closed handle, otherwise appends. *)
Definition File_Write (f : File) (data : string) : Ext (option error) :=
  fun W =>
    match path_of (fd f) W with
    | None => (Some "file already closed", W)
    | Some p => (None, set_files (append_to p data (files W)) W)
    end.

(** [Close] of [*os.File]: releases the descriptor; a second call fails. *)
Definition File_Close (f : File) : Ext (option error) :=
  fun W =>
    if is_open (fd f) W
    then (None,
          set_fdtable (filter (fun e => negb (Nat.eqb (fst e) (fd f))) (fdtable W)) W)
    else (Some "file already closed", W).

(** [os.Remove]: unlinks the path; fails when there is no such file. *)
Definition Remove (p : string) : Ext (option error) :=
  fun W =>
    if exists_path p W
    then (None,
          set_files (filter (fun e => negb (String.eqb (fst e) p)) (files W)) W)
    else (Some ("remove " ++ p ++ ": no such file or directory"), W).

Definition fresh_fd (W : World) : nat :=
  S (fold_right Nat.max 2 (map fst (fdtable W))).

Definition itoa (n : nat) : string := NilZero.string_of_uint (Nat.to_uint n).

(** The name search of [ioutil.TempFile]: prefix plus a number, trying
    the next number while the name is taken. *)
Fixpoint tempfile_name (tries seed : nat) (prefix : string) (W : World)
  : option (nat * string) :=
  match tries with
  | O => None
  | S t =>
      let name := prefix ++ itoa seed in
      if exists_path name W then tempfile_name t (S seed) prefix W
      else Some (S seed, name)
  end.

Definition tempfile_tries : nat := 100 * 100.

(** [ioutil.TempFile] with an empty directory argument. *)
Definition TempFile (pattern : string) : Ext (File + error) :=
  fun W =>
    if tmp_writable W then
      match tempfile_name tempfile_tries (tmp_seed W) ("/tmp/" ++ pattern) W with
      | None => (inr "open /tmp: file exists", W)
      | Some (seed', name) =>
          let n := fresh_fd W in
          (inl (mkFile n name),
           set_tmp_seed seed'
             (set_fdtable (fdtable W ++ [(n, name)])
                (set_files (files W ++ [(name, EmptyString)]) W)))
      end
    else (inr "open /tmp: permission denied", W).

(** [filepath.Base]: the last element of a path, trailing slashes
    dropped. *)
Fixpoint strip_trailing (s : string) : string :=
  match s with
  | EmptyString => EmptyString
  | String c r =>
      match strip_trailing r with
      | EmptyString =>
          if Ascii.eqb c "/"%char then EmptyString else String c EmptyString
      | r' => String c r'
      end
  end.

Fixpoint after_last_slash (s acc : string) : string :=
  match s with
  | EmptyString => acc
  | String c r =>
      if Ascii.eqb c "/"%char then after_last_slash r EmptyString
      else after_last_slash r (acc ++ String c EmptyString)
  end.

Definition Base (path : string) : string :=
  if String.eqb path EmptyString then "."
  else
    let b := after_last_slash (strip_trailing path) EmptyString in
    if String.eqb b EmptyString then "/" else b.

End Os.

(** Package log: [log.Printf] and [log.Println] with the message already
    formatted; one entry per call. *)
Module Log.
Definition Output (msg : string) : Ext unit :=
  fun W => (tt, set_logged (logged W ++ [msg]) W).
End Log.

(** Package time. *)
Module Time.
Definition Second : Z := 1000000000%Z.
Definition Sleep (d : Z) : Ext unit :=
  fun W => (tt, set_now (now W + Z.max 0 d)%Z W).
End Time.

(** The go statement: the new goroutine is queued, the caller goes on. *)
Definition go (g : Goroutine) : Ext unit :=
  fun W => (tt, set_goroutines (goroutines W ++ [g]) W).

(** ** The sinks of the package *)

(** [func (w stderrWriter) Write(p []byte) (int, error)] *)
Definition stderrWriter_Write (p : string) : Ext (option error) :=
  Os.File_Write Os.Stderr p.

(** [func (w stderrWriter) Close() error] *)
Definition stderrWriter_Close : Ext (option error) :=
  fun W => (None, W).

(** [func (w stdoutWriter) Write(p []byte) (int, error)] *)
Definition stdoutWriter_Write (p : string) : Ext (option error) :=
  Os.File_Write Os.Stdout p.

(** [func (w stdoutWriter) Close() error] *)
Definition stdoutWriter_Close : Ext (option error) :=
  fun W => (None, W).

(** Method dispatch on an [io.WriteCloser]. *)
Definition WriteCloser_Write (w : WriteCloser) (p : string) : Ext (option error) :=
  match w with
  | W_stderrWriter => stderrWriter_Write p
  | W_stdoutWriter => stdoutWriter_Write p
  | W_File f => Os.File_Write f p
  | W_foreign o => fun W => (fw_Write o, W)
  end.

Definition WriteCloser_Close (w : WriteCloser) : Ext (option error) :=
  match w with
  | W_stderrWriter => stderrWriter_Close
  | W_stdoutWriter => stdoutWriter_Close
  | W_File f => Os.File_Close f
  | W_foreign o => fun W => (fw_Close o, W)
  end.

(** Package runtime/pprof. *)
Module Pprof.

Definition Lookup (name : string) : Ext (option Profile) :=
  fun W => (find (fun p => String.eqb (prof_name p) name) (registry W), W).

(** [(p *Profile) WriteTo(w, debug)]: renders into [w]; the error is
    the one [w.Write] gives. *)
Definition WriteTo (p : Profile) (w : WriteCloser) : Ext (option error) :=
  WriteCloser_Write w (prof_dump p).

(** One CPU profile at a time for the whole process. *)
Definition StartCPUProfile (w : WriteCloser) : Ext (option error) :=
  fun W =>
    match cpu W with
    | Some _ => (Some "cpu profiling already in use", W)
    | None => (None, set_cpu (Some w) W)
    end.

Definition StopCPUProfile : Ext unit :=
  fun W =>
    match cpu W with
    | None => (tt, W)
    | Some w =>
        (tt, set_cpu None (snd (WriteCloser_Write w "cpu profile samples" W)))
    end.

End Pprof.

(** ** Calls and the monad of the package's code *)

(** A call that leaves the code under study, with what it returned. *)
Inductive Event :=
| EvSigChanFactory
| EvWriterFactory (profile : string) (output : outputType) (w : WriteCloser)
| EvProfilerFactory
| EvWriteProfile (w : WriteCloser) (profileName : string) (err : option error)
| EvClose (w : WriteCloser) (err : option error)
| EvRemove (path : string) (err : option error)
| EvLog (msg : string)
| EvTempFile (pattern : string) (r : File + error)
| EvLookup (name : string) (r : option Profile)
| EvWriteTo (name : string) (w : WriteCloser) (err : option error)
| EvStartCPUProfile (w : WriteCloser) (err : option error)
| EvStopCPUProfile
| EvGo (g : Goroutine)
| EvSleep (d : Z).

Definition M (A : Type) := World -> (A * World) * list Event.

Definition ret {A} (a : A) : M A := fun W => ((a, W), []).

Definition result {A} (r : (A * World) * list Event) : A := fst (fst r).
Definition world {A} (r : (A * World) * list Event) : World := snd (fst r).
Definition trace {A} (r : (A * World) * list Event) : list Event := snd r.

Definition bind {A B} (m : M A) (k : A -> M B) : M B :=
  fun W =>
    let r1 := m W in
    let r2 := k (result r1) (world r1) in
    ((result r2, world r2), (trace r1 ++ trace r2)%list).

Notation "x <- m ;; k" := (bind m (fun x => k))
  (at level 61, m at next level, right associativity).
Notation "m ;;; k" := (bind m (fun _ => k))
  (at level 61, right associativity).

(** [call ev f]: perform [f] and record the call with its result. *)
Definition call {A} (ev : A -> Event) (f : Ext A) : M A :=
  fun W => (f W, [ev (fst (f W))]).

(** Read a package-level variable. *)
Definition read {A} (f : World -> A) : M A := fun W => ((f W, W), []).

(** Run package code where only its effect on the process matters. *)
Definition forget {A} (m : M A) : Ext A := fun W => fst (m W).

Definition log_Printf (msg : string) : M unit :=
  call (fun _ => EvLog msg) (Log.Output msg).
Definition log_Println (msg : string) : M unit :=
  call (fun _ => EvLog msg) (Log.Output msg).

(** ** The package *)

(** [type profiler interface { writeProfile(w, profileName) error }] *)
Record profiler := mkProfiler {
  writeProfile : WriteCloser -> string -> Ext (option error)
}.

(** What the k-th receive on a [<-chan os.Signal] gives: a value, the
    closed-channel answer, or nothing ever (no sender, no close). *)
Inductive Recv :=
| Got (sig : Signal)
| Closed
| Pending.

Definition Chan := nat -> Recv.

Record sigprof := mkSigprof {
  usr1 : list string;
  usr2 : list string;
  output : outputType;
  writerFactory : string -> outputType -> Ext WriteCloser;
  profilerFactory : Ext profiler;
  sigChanFactory : Ext Chan
}.

(** The quoting of the verb q in a format, for a name without special
    characters. *)
Definition dquote : string := String (ascii_of_nat 34) EmptyString.
Definition quote (x : string) : string := dquote ++ x ++ dquote.

(** [func newWriter(profile string, output outputType) io.WriteCloser] *)
Definition newWriter (profile : string) (output : outputType) : M WriteCloser :=
  if String.eqb output "file" then
    a0 <- read args0 ;;
    r <- call (EvTempFile (Os.Base a0 ++ "." ++ profile ++ ".prof."))
              (Os.TempFile (Os.Base a0 ++ "." ++ profile ++ ".prof.")) ;;
    match r with
    | inr err =>
        log_Printf ("failed to create file for " ++ profile ++ " profile: " ++ err) ;;;
        ret W_stderrWriter
    | inl f =>
        log_Printf ("writing " ++ profile ++ " profile to " ++ Name f) ;;;
        ret (W_File f)
    end
  else if String.eqb output "stdout" then ret W_stdoutWriter
  else if String.eqb output "stderr" then ret W_stderrWriter
  else ret W_stderrWriter.

(** The function literal of [cpuProfile], run as its own goroutine. *)
Definition cpuProfile_func1 (w : WriteCloser) : M unit :=
  d <- read cpuProfileDuration ;;
  call (fun _ => EvSleep d) (Time.Sleep d) ;;;
  log_Println "cpu profile complete" ;;;
  call (fun _ => EvStopCPUProfile) Pprof.StopCPUProfile ;;;
  err <- call (EvClose w) (WriteCloser_Close w) ;;
  match err with
  | Some e => log_Println ("error closing file: %v " ++ e)
  | None => ret tt
  end.

Definition run_goroutine (g : Goroutine) : M unit :=
  match g with
  | G_cpuProfile_func1 w => cpuProfile_func1 w
  end.

(** [func (p *pprofiler) cpuProfile(w io.WriteCloser) error] *)
Definition cpuProfile (w : WriteCloser) : M (option error) :=
  err <- call (EvStartCPUProfile w) (Pprof.StartCPUProfile w) ;;
  match err with
  | Some e => ret (Some ("failed to start CPU profiling: " ++ e))
  | None =>
      call (fun _ => EvGo (G_cpuProfile_func1 w)) (go (G_cpuProfile_func1 w)) ;;;
      ret None
  end.

(** [func (p *pprofiler) writeProfile(w io.WriteCloser, profileName string) error] *)
Definition pprofiler_writeProfile (w : WriteCloser) (profileName : string)
  : M (option error) :=
  if String.eqb profileName "cpu" then cpuProfile w
  else
    prof <- call (EvLookup profileName) (Pprof.Lookup profileName) ;;
    match prof with
    | None => ret (Some ("failed to lookup profile " ++ quote profileName))
    | Some pr => call (EvWriteTo profileName w) (Pprof.WriteTo pr w)
    end.

Definition pprofiler : profiler :=
  mkProfiler (fun w profileName => forget (pprofiler_writeProfile w profileName)).

(** [func newProfiler() profiler] *)
Definition newProfiler : Ext profiler := fun W => (pprofiler, W).

(** [func (s *sigprof) writer(profile string) io.WriteCloser] *)
Definition writer (s : sigprof) (profile : string) : M WriteCloser :=
  call (EvWriterFactory profile (output s)) (writerFactory s profile (output s)).

(** The last statement of [profile]: every sink but that of a cpu
    profile is closed, the result of [Close] dropped. *)
Definition profile_close (profileName : string) (w : WriteCloser) : M unit :=
  if negb (String.eqb profileName "cpu") then
    call (EvClose w) (WriteCloser_Close w) ;;; ret tt
  else ret tt.

(** [func (s *sigprof) profile(profileName string, w io.WriteCloser)] *)
Definition profile (s : sigprof) (profileName : string) (w : WriteCloser) : M unit :=
  p <- call (fun _ => EvProfilerFactory) (profilerFactory s) ;;
  err <- call (EvWriteProfile w profileName) (writeProfile p w profileName) ;;
  match err with
  | Some e =>
      log_Printf ("failed to write " ++ profileName ++ " profile: " ++ e) ;;;
      match w with
      | W_File f =>
          err <- call (EvClose w) (Os.File_Close f) ;;
          match err with
          | Some e => log_Printf ("error closing file: " ++ e)
          | None => ret tt
          end ;;;
          err <- call (EvRemove (Name f)) (Os.Remove (Name f)) ;;
          match err with
          | Some e => log_Printf ("cleanup error removing file: " ++ e)
          | None => ret tt
          end
      | _ => profile_close profileName w
      end
  | None => profile_close profileName w
  end.

(** The range loop of [profileSignal]. *)
Fixpoint range_profiles (s : sigprof) (profiles : list string) : M unit :=
  match profiles with
  | [] => ret tt
  | name :: rest =>
      w <- writer s name ;;
      profile s name w ;;;
      range_profiles s rest
  end.

(** [func (s *sigprof) profileSignal(sig os.Signal)] *)
Definition profileSignal (s : sigprof) (sig : Signal) : M unit :=
  if Z.eqb sig SIGUSR1 then range_profiles s (usr1 s)
  else if Z.eqb sig SIGUSR2 then range_profiles s (usr2 s)
  else ret tt.

(** How far [loop] got: it returned, it waits on a receive that never
    completes, or it is still going after the steps allowed. *)
Inductive LoopStatus :=
| Returned
| Blocked
| Running.

(** The for/select of [loop], from the k-th receive on. *)
Fixpoint loop_from (s : sigprof) (c : Chan) (k fuel : nat) : M LoopStatus :=
  match fuel with
  | O => ret Running
  | S fuel' =>
      match c k with
      | Closed => ret Returned
      | Pending => ret Blocked
      | Got sig => profileSignal s sig ;;; loop_from s c (S k) fuel'
      end
  end.

(** [func (s *sigprof) loop()] *)
Definition loop (s : sigprof) (fuel : nat) : M LoopStatus :=
  c <- call (fun _ => EvSigChanFactory) (sigChanFactory s) ;;
  loop_from s c 0 fuel.

(** Run the oldest queued goroutine to its end, if there is one. *)
Definition run_next : M bool :=
  fun W =>
    match goroutines W with
    | [] => ((false, W), [])
    | g :: rest => (run_goroutine g ;;; ret true) (set_goroutines rest W)
    end.

(** ** Reading a trace *)

(** The two calls of a capture attempt. *)
Inductive Attempt :=
| GetSink (name : string) (output : outputType) (w : WriteCloser)
| RunEngine (w : WriteCloser) (name : string).

Fixpoint capture_calls (t : list Event) : list Attempt :=
  match t with
  | [] => []
  | EvWriterFactory name out w :: t' => GetSink name out w :: capture_calls t'
  | EvWriteProfile w name _ :: t' => RunEngine w name :: capture_calls t'
  | _ :: t' => capture_calls t'
  end.

(** The calls that dispose of a sink. *)
Inductive Cleanup :=
| DoClose (w : WriteCloser)
| DoRemove (path : string).

Fixpoint cleanup_calls (t : list Event) : list Cleanup :=
  match t with
  | [] => []
  | EvClose w _ :: t' => DoClose w :: cleanup_calls t'
  | EvRemove p _ :: t' => DoRemove p :: cleanup_calls t'
  | _ :: t' => cleanup_calls t'
  end.

Fixpoint close_calls (t : list Event) : list WriteCloser :=
  match t with
  | [] => []
  | EvClose w _ :: t' => w :: close_calls t'
  | _ :: t' => close_calls t'
  end.

Fixpoint log_calls (t : list Event) : list string :=
  match t with
  | [] => []
  | EvLog msg :: t' => msg :: log_calls t'
  | _ :: t' => log_calls t'
  end.

(** The list configured for a signal; empty for any other signal. *)
Definition profiles_for (s : sigprof) (sig : Signal) : list string :=
  if Z.eqb sig SIGUSR1 then usr1 s
  else if Z.eqb sig SIGUSR2 then usr2 s
  else [].

(** The attempts a list of names asks for, with the sinks the factory
    handed out. *)
Fixpoint attempts (out : outputType) (names : list string) (ws : list WriteCloser)
  : list Attempt :=
  match names, ws with
  | name :: names', w :: ws' =>
      GetSink name out w :: RunEngine w name :: attempts out names' ws'
  | _, _ => []
  end.

(** The signals the first [n] receives from the k-th on hand over. *)
Fixpoint received (c : Chan) (k n : nat) : list Signal :=
  match n with
  | O => []
  | S n' =>
      match c k with
      | Got sig => sig :: received c (S k) n'
      | _ => []
      end
  end.

(** A channel on which [sigs] are sent and which then answers [last]. *)
Definition chan_of (sigs : list Signal) (last : Recv) : Chan :=
  fun k => nth k (map Got sigs) last.

(** Handle [sigs] one after the other. *)
Fixpoint handle_all (s : sigprof) (sigs : list Signal) : M unit :=
  match sigs with
  | [] => ret tt
  | sig :: rest => profileSignal s sig ;;; handle_all s rest
  end.

(** ** A process to run things in *)

Definition builtin_profiles : list Profile :=
  [ mkProfile "goroutine" "goroutine profile: total 1";
    mkProfile "threadcreate" "threadcreate profile: total 1";
    mkProfile "heap" "heap profile: 0: 0 [0: 0] @ heap/1";
    mkProfile "block" "--- contention:" ].

Definition W0 : World :=
  mkWorld [("/dev/stdout", EmptyString); ("/dev/stderr", EmptyString)]
          [(0, "/dev/stdin"); (1, "/dev/stdout"); (2, "/dev/stderr")]
          true 0 "/usr/local/bin/server" [] builtin_profiles None [] 0
          (30 * Time.Second).

(** The configuration [newSigprof] builds when no variable is set. *)
Definition default_sigprof (c : Chan) : sigprof :=
  mkSigprof ["goroutine"] ["heap"] "file"
            (fun name out => forget (newWriter name out))
            newProfiler
            (fun W => (c, W)).

(** Test doubles in the manner of the package's tests. *)
Definition bufferCloser (n : nat) : WriteCloser := W_foreign (mkForeign n None None).
Definition testProfiler : profiler :=
  mkProfiler (fun w name => WriteCloser_Write w ("test " ++ name)).
Definition errorProfiler : profiler :=
  mkProfiler (fun _ _ W => (Some "testing write failed", W)).

Definition stub_sigprof (p : profiler) (c : Chan) : sigprof :=
  mkSigprof ["foo"; "bar"] ["baz"; "quux"] "orange"
            (fun _ _ W => (bufferCloser (tmp_seed W), set_tmp_seed (S (tmp_seed W)) W))
            (fun W => (p, W))
            (fun W => (c, W)).

(** What the channel alone decides about the loop. *)
Fixpoint status_after (c : Chan) (k fuel : nat) : LoopStatus :=
  match fuel with
  | O => Running
  | S fuel' =>
      match c k with
      | Closed => Returned
      | Pending => Blocked
      | Got _ => status_after c (S k) fuel'
      end
  end.

(** What the profiler answers when [profile] calls it in [W]. *)
Definition engine_result (s : sigprof) (profileName : string) (w : WriteCloser)
  (W : World) : option error :=
  fst (writeProfile (fst (profilerFactory s W)) w profileName
         (snd (profilerFactory s W))).

Definition is_File (w : WriteCloser) : bool :=
  match w with
  | W_File _ => true
  | _ => false
  end.

(** A file opened on descriptor [fd f] under the name [Name f]. *)
Definition with_open_file (f : File) (W : World) : World :=
  set_fdtable (fdtable W ++ [(fd f, Name f)])
    (set_files (files W ++ [(Name f, "partial")]) W).

Definition cpu_file : File := mkFile 3 "/tmp/server.cpu.prof.0".

(** A process in which a CPU profile is already being taken. *)
Definition W_cpu_busy : World :=
  set_cpu (Some (bufferCloser 9)) (with_open_file cpu_file W0).

(** A sink whose [Close] reports an error. *)
Definition failing_closer : WriteCloser :=
  W_foreign (mkForeign 1 None (Some "close: input/output error")).

(** A process whose temporary directory takes no new file. *)
Definition W_tmp_readonly : World :=
  mkWorld (files W0) (fdtable W0) false (tmp_seed W0) (args0 W0) (logged W0)
          (registry W0) (cpu W0) (goroutines W0) (now W0) (cpuProfileDuration W0).

(** ** Configuration and the signal source *)

(** [strings.Split(s, sep)] for a separator of one byte, as at both of
    its call sites: the pieces between the separators, one more than
    there are separators. *)
Fixpoint strings_Split (s : string) (sep : ascii) : list string :=
  match s with
  | EmptyString => [EmptyString]
  | String c r =>
      if Ascii.eqb c sep then EmptyString :: strings_Split r sep
      else
        match strings_Split r sep with
        | piece :: pieces => String c piece :: pieces
        | [] => [String c EmptyString]
        end
  end.

(** [strings.Count(s, sep)] for a separator of one byte. *)
Fixpoint strings_Count (s : string) (sep : ascii) : nat :=
  match s with
  | EmptyString => 0
  | String c r => (if Ascii.eqb c sep then 1 else 0) + strings_Count r sep
  end.

(** [os.Getenv]: the value of a variable, empty when it is not set. *)
Definition Environ := string -> string.

(** The two signals [newSigChan] asks the runtime to relay. *)
Inductive Relayed :=
| RelayedUSR1
| RelayedUSR2.

Definition signal_of (r : Relayed) : Signal :=
  match r with
  | RelayedUSR1 => SIGUSR1
  | RelayedUSR2 => SIGUSR2
  end.

(** [func newSigChan() <-chan (os.Signal)]: a fresh channel on which the
    runtime hands over SIGUSR1 and SIGUSR2 and nothing else; nobody
    closes it.  [sent k] is the k-th signal handed over, if there is
    one. *)
Definition newSigChan (sent : nat -> option Relayed) : Ext Chan :=
  fun W =>
    (fun k => match sent k with
              | Some r => Got (signal_of r)
              | None => Pending
              end,
     W).

(** [func newSigprof() sigprof] *)
Definition newSigprof (getenv : Environ) (sent : nat -> option Relayed) : sigprof :=
  let usr1EnvStr := getenv "SIGPROF_USR1" in
  let usr1EnvStr :=
    if String.eqb usr1EnvStr EmptyString then "goroutine" else usr1EnvStr in
  let usr2EnvStr := getenv "SIGPROF_USR2" in
  let usr2EnvStr :=
    if String.eqb usr2EnvStr EmptyString then "heap" else usr2EnvStr in
  let output := getenv "SIGPROF_OUT" in
  let output := if String.eqb output EmptyString then "file" else output in
  mkSigprof (strings_Split usr1EnvStr ","%char)
            (strings_Split usr2EnvStr ","%char)
            output
            (fun name out => forget (newWriter name out))
            newProfiler
            (newSigChan sent).

(** The value [newSigprof] splits for a variable: its own, or the
    default when it is empty. *)
Definition or_default (v default : string) : string :=
  if String.eqb v EmptyString then default else v.

(** A dispatcher wired with the package's own factory and profiler. *)
Definition own_factories (s : sigprof) : Prop :=
  writerFactory s = (fun name out => forget (newWriter name out)) /\
  profilerFactory s = newProfiler.

(** An environment in which the given variables are set. *)
Fixpoint environ_of (vars : list (string * string)) : Environ :=
  fun name =>
    match vars with
    | [] => EmptyString
    | (n, v) :: rest => if String.eqb n name then v else environ_of rest name
    end.

(** ** Package utils (file helpers) *)

Module Utils.

(** [strings.HasPrefix(s, prefix)] *)
Definition HasPrefix (s prefix : string) : bool := String.prefix prefix s.

(** [func MakeFileURL(in string) string] *)
Definition MakeFileURL (input : string) : string :=
  if HasPrefix input "/" then "file://" ++ input else input.

(** [user.User]: the fields the package reads. *)
Record User := mkUser {
  Uid : string;
  Gid : string;
  Username : string;
  HomeDir : string
}.

(** The host: its user database and the owner, as user and group id, of
    every existing path. *)
Record Host := mkHost {
  users : list User;
  owners : list (string * (Z * Z))
}.

(** [user.Lookup] *)
Definition Lookup (username : string) (h : Host) : User + error :=
  match find (fun u => String.eqb (Username u) username) (users h) with
  | Some u => inl u
  | None => inr ("user: unknown user " ++ username)
  end.






(** [func homeDir(userName string) (string, error)]; the error is that
    of [errors.NewUserNotFound(err, "no such user")]. *)
Definition homeDir (userName : string) (h : Host) : string * option error :=
  match Lookup userName h with
  | inr err => (EmptyString, Some ("no such user: " ++ err))
  | inl u => (HomeDir u, None)
  end.



End Utils.



(** * Properties *)

#[local] Arguments String.eqb : simpl never.
#[local] Arguments Z.eqb : simpl never.
#[local] Arguments String.append : simpl never.

(** ** The monad and the trace projections *)

Lemma trace_bind {A B} (m : M A) (k : A -> M B) W :
  trace (bind m k W) = (trace (m W) ++ trace (k (result (m W)) (world (m W))))%list.
Proof. reflexivity. Qed.

Lemma world_bind {A B} (m : M A) (k : A -> M B) W :
  world (bind m k W) = world (k (result (m W)) (world (m W))).
Proof. reflexivity. Qed.

Lemma result_bind {A B} (m : M A) (k : A -> M B) W :
  result (bind m k W) = result (k (result (m W)) (world (m W))).
Proof. reflexivity. Qed.

Lemma capture_calls_app t1 t2 :
  capture_calls (t1 ++ t2) = (capture_calls t1 ++ capture_calls t2)%list.
Proof.
  induction t1 as [|e t1 IH]; [reflexivity|].
  destruct e; simpl; rewrite IH; reflexivity.
Qed.

Lemma cleanup_calls_app t1 t2 :
  cleanup_calls (t1 ++ t2) = (cleanup_calls t1 ++ cleanup_calls t2)%list.
Proof.
  induction t1 as [|e t1 IH]; [reflexivity|].
  destruct e; simpl; rewrite IH; reflexivity.
Qed.

Lemma close_calls_app t1 t2 :
  close_calls (t1 ++ t2) = (close_calls t1 ++ close_calls t2)%list.
Proof.
  induction t1 as [|e t1 IH]; [reflexivity|].
  destruct e; simpl; rewrite IH; reflexivity.
Qed.


(** Split on whatever the goal still branches on. *)
Ltac split_cases :=
  repeat match goal with
         | |- context [match ?x with _ => _ end] => destruct x eqn:?; simpl
         end.

Ltac run_profile :=
  unfold profile, profile_close, log_Printf, bind, call, ret, trace, result, world;
  simpl.

(** ** Dispatch *)

(** One engine call per [profile], whatever comes of it. *)
Lemma profile_capture_calls s name w W :
  capture_calls (trace (profile s name w W)) = [RunEngine w name].
Proof.
  run_profile.
  destruct (writeProfile _ w name _) as [[e|] W2]; simpl;
    destruct w; simpl; destruct (String.eqb name "cpu"); simpl;
    split_cases; reflexivity.
Qed.

Lemma range_profiles_capture_calls s names : forall W,
  exists ws,
    length ws = length names /\
    capture_calls (trace (range_profiles s names W)) = attempts (output s) names ws.
Proof.
  induction names as [|name rest IH]; intros W.
  - exists []. split; reflexivity.
  - cbn [range_profiles].
    rewrite trace_bind, trace_bind, !capture_calls_app, profile_capture_calls.
    match goal with
    | |- context [range_profiles s rest ?W'] => destruct (IH W') as [ws [Hlen Hws]]
    end.
    exists (result (writer s name W) :: ws). split.
    + simpl. now rewrite Hlen.
    + rewrite Hws. reflexivity.
Qed.

Lemma attempts_app out n1 n2 w1 w2 :
  length w1 = length n1 ->
  attempts out (n1 ++ n2) (w1 ++ w2) = (attempts out n1 w1 ++ attempts out n2 w2)%list.
Proof.
  revert w1. induction n1 as [|n n1 IH]; intros [|w w1] Hlen; try discriminate.
  - reflexivity.
  - simpl. f_equal. f_equal. apply IH. now injection Hlen.
Qed.

Lemma profileSignal_capture_calls s sig W :
  exists ws,
    length ws = length (profiles_for s sig) /\
    capture_calls (trace (profileSignal s sig W))
    = attempts (output s) (profiles_for s sig) ws.
Proof.
  unfold profileSignal, profiles_for.
  destruct (Z.eqb sig SIGUSR1); [apply range_profiles_capture_calls|].
  destruct (Z.eqb sig SIGUSR2); [apply range_profiles_capture_calls|].
  exists []. split; reflexivity.
Qed.

Lemma loop_from_capture_calls s c fuel : forall k W,
  exists ws,
    length ws = length (flat_map (profiles_for s) (received c k fuel)) /\
    capture_calls (trace (loop_from s c k fuel W))
    = attempts (output s) (flat_map (profiles_for s) (received c k fuel)) ws.
Proof.
  induction fuel as [|fuel IH]; intros k W.
  - exists []. split; reflexivity.
  - cbn [loop_from received]. destruct (c k) as [sig| |].
    + rewrite trace_bind, capture_calls_app.
      destruct (profileSignal_capture_calls s sig W) as [ws1 [Hl1 Hc1]].
      match goal with
      | |- context [loop_from s c (S k) fuel ?W'] =>
          destruct (IH (S k) W') as [ws2 [Hl2 Hc2]]
      end.
      exists (ws1 ++ ws2)%list. cbn [flat_map]. split.
      * rewrite !length_app. congruence.
      * rewrite Hc1, Hc2. symmetry. now apply attempts_app.
    + exists []. split; reflexivity.
    + exists []. split; reflexivity.
Qed.

(** C1. A SIGUSR1 (SIGUSR2) makes one attempt per entry of [usr1]
    ([usr2]), in the order of the list: the sink is asked of the writer
    factory with the entry and the configured output, and the profiler is
    then called with that sink and the entry.  The same holds along the
    whole loop for the signals received one after the other.  Nothing is
    assumed of the factory or of the profiler, so no failure of a capture
    takes an attempt away. *)
Theorem dispatch_attempts_per_entry (s : sigprof) (W : World) :
  (exists ws,
      length ws = length (usr1 s) /\
      capture_calls (trace (profileSignal s SIGUSR1 W))
      = attempts (output s) (usr1 s) ws) /\
  (exists ws,
      length ws = length (usr2 s) /\
      capture_calls (trace (profileSignal s SIGUSR2 W))
      = attempts (output s) (usr2 s) ws) /\
  (forall fuel,
    exists ws,
      let names :=
        flat_map (profiles_for s) (received (fst (sigChanFactory s W)) 0 fuel) in
      length ws = length names /\
      capture_calls (trace (loop s fuel W)) = attempts (output s) names ws).
Proof.
  split; [|split].
  - apply (profileSignal_capture_calls s SIGUSR1 W).
  - apply (profileSignal_capture_calls s SIGUSR2 W).
  - intros fuel. unfold loop. rewrite trace_bind.
    destruct (loop_from_capture_calls s (fst (sigChanFactory s W)) fuel 0
                (snd (sigChanFactory s W))) as [ws [Hl Hc]].
    exists ws. split; [exact Hl|]. exact Hc.
Qed.

(** ** Signals other than the two *)

Lemma bind_ret_tt {A} (m : M A) W :
  (ret tt ;;; m) W = m W.
Proof.
  unfold bind, ret, result, world, trace. simpl.
  destruct (m W) as [[a W'] t]. reflexivity.
Qed.

(** C8. A signal that is neither SIGUSR1 nor SIGUSR2 leaves the process
    as it was and makes no call at all; the loop goes on to its next
    receive. *)
Theorem other_signal_ignored (s : sigprof) (sig : Signal) (W : World) :
  sig <> SIGUSR1 -> sig <> SIGUSR2 ->
  profileSignal s sig W = ((tt, W), []) /\
  (forall c k fuel,
      c k = Got sig ->
      loop_from s c k (S fuel) W = loop_from s c (S k) fuel W).
Proof.
  intros H1 H2.
  assert (Hps : profileSignal s sig = ret tt).
  { unfold profileSignal.
    destruct (Z.eqb_spec sig SIGUSR1); [contradiction|].
    destruct (Z.eqb_spec sig SIGUSR2); [contradiction|]. reflexivity. }
  split.
  - now rewrite Hps.
  - intros c k fuel Hc. cbn [loop_from]. rewrite Hc, Hps. apply bind_ret_tt.
Qed.

Lemma other_signal_ignored_witness :
  profileSignal (stub_sigprof testProfiler (chan_of [SIGHUP] Closed)) SIGHUP W0
  = ((tt, W0), []).
Proof.
  apply (other_signal_ignored _ SIGHUP W0); discriminate.
Defined.

(** ** The loop *)

Lemma loop_from_spec s c fuel : forall k W,
  result (loop_from s c k fuel W) = status_after c k fuel /\
  world (loop_from s c k fuel W) = world (handle_all s (received c k fuel) W) /\
  trace (loop_from s c k fuel W) = trace (handle_all s (received c k fuel) W).
Proof.
  induction fuel as [|fuel IH]; intros k W.
  - repeat split.
  - cbn [loop_from received status_after]. destruct (c k) as [sig| |].
    + cbn [handle_all].
      rewrite result_bind, world_bind, !trace_bind, world_bind.
      destruct (IH (S k) (world (profileSignal s sig W))) as [Hr [Hw Ht]].
      rewrite Hr, Hw, Ht. repeat split.
    + repeat split.
    + repeat split.
Qed.

Lemma status_after_returned c fuel : forall k,
  status_after c k fuel = Returned <->
  exists n, n < fuel /\ c (k + n) = Closed /\
            forall i, i < n -> exists sig, c (k + i) = Got sig.
Proof.
  induction fuel as [|fuel IH]; intros k; cbn [status_after].
  - split; [discriminate|]. intros [n [Hn _]]. lia.
  - destruct (c k) as [sig| |] eqn:Hck.
    + rewrite IH. split.
      * intros [n [Hn [Hc Hall]]]. exists (S n). split; [lia|]. split.
        -- now replace (k + S n) with (S k + n) by lia.
        -- intros [|i] Hi.
           ++ exists sig. now rewrite Nat.add_0_r.
           ++ replace (k + S i) with (S k + i) by lia. apply Hall. lia.
      * intros [[|n] [Hn [Hc Hall]]].
        -- rewrite Nat.add_0_r in Hc. congruence.
        -- exists n. split; [lia|]. split.
           ++ now replace (S k + n) with (k + S n) by lia.
           ++ intros i Hi. replace (S k + i) with (k + S i) by lia.
              apply Hall. lia.
    + split; [intros _|reflexivity].
      exists 0. split; [lia|]. split; [now rewrite Nat.add_0_r|].
      intros i Hi. lia.
    + split; [discriminate|].
      intros [[|n] [Hn [Hc Hall]]].
      * rewrite Nat.add_0_r in Hc. congruence.
      * destruct (Hall 0) as [sig Hsig]; [lia|].
        rewrite Nat.add_0_r in Hsig. congruence.
Qed.

(** C9. Within the steps allowed, the loop returns exactly when the
    channel is found closed after the signals sent before; up to there
    every received signal has been handled, in order, and that is all
    the loop did.  The profiler and the factory are arbitrary, so neither
    a failed capture nor a signal of another kind ends the loop. *)
Theorem loop_returns_when_closed (s : sigprof) (fuel : nat) (W : World) :
  let c := fst (sigChanFactory s W) in
  let W1 := snd (sigChanFactory s W) in
  (result (loop s fuel W) = Returned <->
   exists n, n < fuel /\ c n = Closed /\
             forall i, i < n -> exists sig, c i = Got sig) /\
  world (loop s fuel W) = world (handle_all s (received c 0 fuel) W1) /\
  trace (loop s fuel W)
  = EvSigChanFactory :: trace (handle_all s (received c 0 fuel) W1).
Proof.
  intros c W1. unfold loop.
  rewrite result_bind, world_bind, trace_bind.
  destruct (loop_from_spec s c fuel 0 W1) as [Hr [Hw Ht]].
  split; [|split].
  - change (result (call (fun _ => EvSigChanFactory) (sigChanFactory s) W)) with c.
    change (world (call (fun _ => EvSigChanFactory) (sigChanFactory s) W)) with W1.
    rewrite Hr. apply (status_after_returned c fuel 0).
  - exact Hw.
  - cbn [call trace snd app]. f_equal. exact Ht.
Qed.

(** ** The file system *)

Lemma is_open_after_close f W :
  Os.is_open (fd f) (snd (Os.File_Close f W)) = false.
Proof.
  unfold Os.File_Close. destruct (Os.is_open (fd f) W) eqn:Hopen; [|exact Hopen].
  unfold Os.is_open. cbn [snd set_fdtable fdtable].
  induction (fdtable W) as [|e l IH]; [reflexivity|].
  cbn [filter]. destruct (Nat.eqb (fst e) (fd f)) eqn:He; cbn [negb]; [exact IH|].
  cbn [existsb]. rewrite He. exact IH.
Qed.

Lemma exists_path_after_remove p W :
  Os.exists_path p (snd (Os.Remove p W)) = false.
Proof.
  unfold Os.Remove. destruct (Os.exists_path p W) eqn:Hex; [|exact Hex].
  unfold Os.exists_path. cbn [snd set_files files].
  induction (files W) as [|e l IH]; [reflexivity|].
  cbn [filter]. destruct (String.eqb (fst e) p) eqn:He; cbn [negb]; [exact IH|].
  cbn [existsb]. rewrite He. exact IH.
Qed.

Lemma fdtable_after_remove p W : fdtable (snd (Os.Remove p W)) = fdtable W.
Proof. unfold Os.Remove. now destruct (Os.exists_path p W). Qed.

Lemma files_after_close f W : files (snd (Os.File_Close f W)) = files W.
Proof. unfold Os.File_Close. now destruct (Os.is_open (fd f) W). Qed.

(** ** Cleaning up after a failed capture *)

(** After an error of the profiler on a file sink: one [Close], then one
    [Remove]; the handle is released and the name is gone. *)
Lemma profile_failed_file
  (s : sigprof) (profileName : string) (f : File) (W : World) (e : error) :
  engine_result s profileName (W_File f) W = Some e ->
  let r := profile s profileName (W_File f) W in
  cleanup_calls (trace r) = [DoClose (W_File f); DoRemove (Name f)] /\
  close_calls (trace r) = [W_File f] /\
  Os.is_open (fd f) (world r) = false /\
  Os.exists_path (Name f) (world r) = false.
Proof.
  unfold engine_result. intros He. run_profile.
  destruct (writeProfile _ (W_File f) profileName _) as [err W2].
  cbn [fst] in He. subst err. cbn [fst snd].
  match goal with
  | |- context [Os.File_Close f ?X] => set (W3 := X)
  end.
  pose proof (is_open_after_close f W3) as Hopen.
  destruct (Os.File_Close f W3) as [cerr W4]. cbn [fst snd] in *.
  assert (Hopen5 : forall W5, fdtable W5 = fdtable W4 -> Os.is_open (fd f) W5 = false).
  { intros W5 H5. unfold Os.is_open in *. now rewrite H5. }
  destruct cerr as [ce|]; cbn [fst snd app];
    match goal with
    | |- context [Os.Remove (Name f) ?X] => set (W5 := X)
    end;
    pose proof (exists_path_after_remove (Name f) W5) as Hex;
    pose proof (fdtable_after_remove (Name f) W5) as Hfd;
    destruct (Os.Remove (Name f) W5) as [rerr W6]; cbn [fst snd] in *;
    destruct rerr; cbn [fst snd app cleanup_calls close_calls];
    repeat split;
    first [ exact Hex
          | apply Hopen5; cbn [Log.Output snd set_logged fdtable];
            rewrite Hfd; reflexivity ].
Qed.

(** C2. When the profiler returns an error and the sink is a file, the
    only disposal calls are one [Close] of the handle followed by one
    [Remove] of its name; afterwards the descriptor is not open and no
    file of that name exists.  The profiler is arbitrary: the error may
    be a failed write of a point-in-time profile or a failed start of
    the cpu profile. *)
Theorem failed_file_capture_removed
  (s : sigprof) (profileName : string) (f : File) (W : World) (e : error) :
  engine_result s profileName (W_File f) W = Some e ->
  let r := profile s profileName (W_File f) W in
  cleanup_calls (trace r) = [DoClose (W_File f); DoRemove (Name f)] /\
  close_calls (trace r) = [W_File f] /\
  Os.is_open (fd f) (world r) = false /\
  Os.exists_path (Name f) (world r) = false.
Proof. exact (profile_failed_file s profileName f W e). Qed.

Lemma failed_file_capture_removed_witness :
  let s := default_sigprof (chan_of [SIGUSR1] Closed) in
  let r := profile s "cpu" (W_File cpu_file) W_cpu_busy in
  engine_result s "cpu" (W_File cpu_file) W_cpu_busy
  = Some "failed to start CPU profiling: cpu profiling already in use" /\
  cleanup_calls (trace r) = [DoClose (W_File cpu_file); DoRemove (Name cpu_file)] /\
  close_calls (trace r) = [W_File cpu_file] /\
  Os.is_open (fd cpu_file) (world r) = false /\
  Os.exists_path (Name cpu_file) (world r) = false.
Proof.
  split; [reflexivity|].
  apply (failed_file_capture_removed
           (default_sigprof (chan_of [SIGUSR1] Closed)) "cpu" cpu_file W_cpu_busy
           "failed to start CPU profiling: cpu profiling already in use").
  reflexivity.
Defined.

(** C10. When the profiler returns an error and the sink is not a file,
    the dispatcher closes the sink once if the profile is not the cpu
    profile, by the closing statement a successful capture ends with,
    and does not close it at all if the profile is the cpu profile. *)
Theorem failed_nonfile_capture_close
  (s : sigprof) (profileName : string) (w : WriteCloser) (W : World) (e : error) :
  is_File w = false ->
  engine_result s profileName w W = Some e ->
  let r := profile s profileName w W in
  (profileName <> "cpu" ->
   close_calls (trace r) = [w] /\ cleanup_calls (trace r) = [DoClose w]) /\
  (profileName = "cpu" ->
   close_calls (trace r) = [] /\ cleanup_calls (trace r) = []) /\
  (forall W', close_calls (trace r) = close_calls (trace (profile_close profileName w W'))).
Proof.
  unfold engine_result. intros Hw He. run_profile.
  destruct (writeProfile _ w profileName _) as [err W2].
  cbn [fst] in He. subst err. cbn [fst snd].
  destruct w as [| |f|o]; try discriminate; cbn [fst snd];
    (split; [|split]);
    try (intros Hne; apply String.eqb_neq in Hne; rewrite Hne; split; reflexivity);
    try (intros Heq; subst profileName; split; reflexivity);
    intros W'; destruct (String.eqb profileName "cpu"); reflexivity.
Qed.

Lemma failed_nonfile_capture_close_witness :
  let s := stub_sigprof errorProfiler (chan_of [SIGUSR1] Closed) in
  (close_calls (trace (profile s "foo" (bufferCloser 1) W0)) = [bufferCloser 1] /\
   cleanup_calls (trace (profile s "foo" (bufferCloser 1) W0))
   = [DoClose (bufferCloser 1)]) /\
  (close_calls (trace (profile s "cpu" W_stderrWriter W0)) = [] /\
   cleanup_calls (trace (profile s "cpu" W_stderrWriter W0)) = []).
Proof.
  split.
  - apply (failed_nonfile_capture_close
             (stub_sigprof errorProfiler (chan_of [SIGUSR1] Closed))
             "foo" (bufferCloser 1) W0 "testing write failed");
      [reflexivity | reflexivity | discriminate].
  - apply (failed_nonfile_capture_close
             (stub_sigprof errorProfiler (chan_of [SIGUSR1] Closed))
             "cpu" W_stderrWriter W0 "testing write failed");
      reflexivity.
Defined.

(** ** The cpu profile *)

Lemma now_File_Write f p W : now (snd (Os.File_Write f p W)) = now W.
Proof. unfold Os.File_Write. now destruct (Os.path_of (fd f) W). Qed.

Lemma now_Write w p W : now (snd (WriteCloser_Write w p W)) = now W.
Proof. destruct w; try reflexivity; apply now_File_Write. Qed.

Lemma now_Close w W : now (snd (WriteCloser_Close w W)) = now W.
Proof.
  destruct w as [| |f|o]; try reflexivity.
  cbn [WriteCloser_Close]. unfold Os.File_Close. now destruct (Os.is_open (fd f) W).
Qed.

Lemma now_StopCPUProfile W : now (snd (Pprof.StopCPUProfile W)) = now W.
Proof.
  unfold Pprof.StopCPUProfile. destruct (cpu W) as [w|]; [|reflexivity].
  cbn [snd set_cpu now]. apply now_Write.
Qed.

(** The goroutine of [cpuProfile]: it sleeps for [cpuProfileDuration],
    then stops the profile and closes the sink, once. *)
Lemma cpuProfile_func1_spec w W :
  let g := run_goroutine (G_cpuProfile_func1 w) W in
  (exists cerr rest,
      trace g = ([EvSleep (cpuProfileDuration W); EvLog "cpu profile complete";
                  EvStopCPUProfile; EvClose w cerr] ++ rest)%list /\
      close_calls rest = [] /\
      (cerr = None -> rest = []) /\
      (forall e, cerr = Some e -> rest = [EvLog ("error closing file: %v " ++ e)])) /\
  close_calls (trace g) = [w] /\
  now (world g) = (now W + Z.max 0 (cpuProfileDuration W))%Z.
Proof.
  cbn [run_goroutine].
  unfold cpuProfile_func1, log_Println, bind, call, read, ret, trace, result, world.
  cbn [fst snd app].
  match goal with
  | |- context [Pprof.StopCPUProfile ?X] => set (W2 := X)
  end.
  assert (Hnow2 : now W2 = (now W + Z.max 0 (cpuProfileDuration W))%Z) by reflexivity.
  clearbody W2.
  pose proof (now_StopCPUProfile W2) as Hnow3.
  destruct (Pprof.StopCPUProfile W2) as [[] W3]. cbn [fst snd] in *.
  pose proof (now_Close w W3) as Hnow4.
  destruct (WriteCloser_Close w W3) as [[e|] W4]; cbn [fst snd app close_calls] in *.
  - split; [|split].
    + exists (Some e), [EvLog ("error closing file: %v " ++ e)].
      repeat split; try reflexivity; try discriminate.
      intros e' He'. now injection He' as ->.
    + reflexivity.
    + cbn. congruence.
  - split; [|split].
    + exists None, []. repeat split; try reflexivity. discriminate.
    + reflexivity.
    + congruence.
Qed.

(** C3. With the package's own profiler and no CPU profile running, a
    capture of the profile named cpu starts the profile, queues the
    goroutine and answers success; the dispatcher makes no [Close], does
    not sleep, and leaves the descriptors as they are.  The queued
    goroutine, whenever it runs, first sleeps for [cpuProfileDuration]
    and only then stops the profile and closes the sink, exactly once. *)
Theorem cpu_capture_closed_by_goroutine (s : sigprof) (w : WriteCloser) (W : World) :
  profilerFactory s = newProfiler ->
  cpu W = None ->
  let r := profile s "cpu" w W in
  pprofiler_writeProfile w "cpu" W
  = ((None, set_goroutines (goroutines W ++ [G_cpuProfile_func1 w]) (set_cpu (Some w) W)),
     [EvStartCPUProfile w None; EvGo (G_cpuProfile_func1 w)]) /\
  trace r = [EvProfilerFactory; EvWriteProfile w "cpu" None] /\
  close_calls (trace r) = [] /\
  now (world r) = now W /\
  fdtable (world r) = fdtable W /\
  goroutines (world r) = (goroutines W ++ [G_cpuProfile_func1 w])%list /\
  forall W',
    let g := run_goroutine (G_cpuProfile_func1 w) W' in
    (exists cerr rest,
        trace g = ([EvSleep (cpuProfileDuration W'); EvLog "cpu profile complete";
                    EvStopCPUProfile; EvClose w cerr] ++ rest)%list /\
        close_calls rest = []) /\
    close_calls (trace g) = [w] /\
    now (world g) = (now W' + Z.max 0 (cpuProfileDuration W'))%Z.
Proof.
  intros Hp Hcpu.
  assert (Hengine :
    pprofiler_writeProfile w "cpu" W
    = ((None, set_goroutines (goroutines W ++ [G_cpuProfile_func1 w])
                (set_cpu (Some w) W)),
       [EvStartCPUProfile w None; EvGo (G_cpuProfile_func1 w)])).
  { unfold pprofiler_writeProfile. rewrite String.eqb_refl.
    unfold cpuProfile, bind, call, ret, trace, result, world, Pprof.StartCPUProfile, go.
    rewrite Hcpu. reflexivity. }
  split; [exact Hengine|].
  assert (Hrun : profile s "cpu" w W
                 = ((tt, set_goroutines (goroutines W ++ [G_cpuProfile_func1 w])
                           (set_cpu (Some w) W)),
                    [EvProfilerFactory; EvWriteProfile w "cpu" None])).
  { run_profile. rewrite Hp. cbn [newProfiler fst snd pprofiler writeProfile].
    unfold forget. rewrite Hengine. reflexivity. }
  cbn zeta. rewrite Hrun. cbn [trace world fst snd close_calls].
  repeat split.
  - destruct (cpuProfile_func1_spec w W') as [[cerr [rest [Ht [Hc _]]]] _].
    exists cerr, rest. split; assumption.
  - apply (cpuProfile_func1_spec w W').
  - apply (cpuProfile_func1_spec w W').
Qed.

Lemma cpu_capture_closed_by_goroutine_witness :
  let s := default_sigprof (chan_of [SIGUSR1] Closed) in
  let w := W_File cpu_file in
  let r := profile s "cpu" w (with_open_file cpu_file W0) in
  trace r = [EvProfilerFactory; EvWriteProfile w "cpu" None] /\
  close_calls (trace r) = [] /\
  now (world r) = 0%Z.
Proof.
  pose proof (cpu_capture_closed_by_goroutine
                (default_sigprof (chan_of [SIGUSR1] Closed))
                (W_File cpu_file) (with_open_file cpu_file W0)
                eq_refl eq_refl) as H.
  cbn zeta in H. destruct H as [_ [Ht [Hc [Hn _]]]].
  repeat split; assumption.
Defined.

(** ** Errors of [Close] *)

(** After a successful capture nothing is logged, whatever [Close]
    answers: its result is dropped. *)
Lemma profile_success_logs_nothing s profileName w W :
  engine_result s profileName w W = None ->
  log_calls (trace (profile s profileName w W)) = [] /\
  close_calls (trace (profile s profileName w W))
  = (if String.eqb profileName "cpu" then [] else [w]).
Proof.
  unfold engine_result. intros He. run_profile.
  destruct (writeProfile _ w profileName _) as [err W2].
  cbn [fst] in He. subst err. cbn [fst snd].
  destruct (String.eqb profileName "cpu"); split; reflexivity.
Qed.

(** The goroutine of the cpu profile does log an error of [Close]. *)
Lemma cpuProfile_func1_logs_close_error w W e :
  fst (WriteCloser_Close w (snd (Pprof.StopCPUProfile
         (snd (Log.Output "cpu profile complete"
            (snd (Time.Sleep (cpuProfileDuration W) W))))))) = Some e ->
  log_calls (trace (cpuProfile_func1 w W))
  = ["cpu profile complete"; "error closing file: %v " ++ e].
Proof.
  intros He.
  unfold cpuProfile_func1, log_Println, bind, call, read, ret, trace, result, world.
  cbn [fst snd app] in *.
  rewrite He. reflexivity.
Qed.

(** C4. The heap profile is written with success into a sink whose
    [Close] then fails: [Close] is called once and its error appears in
    no log call and in no logged line. *)
Theorem close_error_after_success_not_logged :
  let s := default_sigprof (chan_of [SIGUSR2] Closed) in
  let r := profile s "heap" failing_closer W0 in
  trace r = [EvProfilerFactory;
             EvWriteProfile failing_closer "heap" None;
             EvClose failing_closer (Some "close: input/output error")] /\
  log_calls (trace r) = [] /\
  logged (world r) = [].
Proof. repeat split. Qed.

(** The same sink closed by the goroutine of a cpu profile: there the
    error is logged. *)
Example close_error_after_stop_logged :
  log_calls (trace (cpuProfile_func1 failing_closer
                      (set_cpu (Some failing_closer) W0)))
  = ["cpu profile complete"; "error closing file: %v close: input/output error"].
Proof. reflexivity. Qed.

(** The failure branch of [profile] logs an error of [Close] as well. *)
Example close_error_after_failure_logged :
  let s := stub_sigprof errorProfiler (chan_of [] Closed) in
  log_calls (trace (profile s "blops" (W_File cpu_file) W0))
  = ["failed to write blops profile: testing write failed";
     "error closing file: file already closed";
     "cleanup error removing file: remove /tmp/server.cpu.prof.0: no such file or directory"].
Proof. reflexivity. Qed.

(** ** Unknown profiles *)

Lemma engine_result_pprofiler s profileName w W :
  profilerFactory s = newProfiler ->
  engine_result s profileName w W = result (pprofiler_writeProfile w profileName W).
Proof. intros Hp. unfold engine_result. rewrite Hp. reflexivity. Qed.



(** ** The sink factory *)

(** C6. In file mode, when the temporary file cannot be created,
    [newWriter] logs the failure and hands out the stderr sink; the
    attempt goes on: the profiler is called with that sink. *)
Theorem tempfile_failure_falls_back_to_stderr
  (profileName : string) (W : World) (err : error) :
  fst (Os.TempFile (Os.Base (args0 W) ++ "." ++ profileName ++ ".prof.") W) = inr err ->
  result (newWriter profileName "file" W) = W_stderrWriter /\
  log_calls (trace (newWriter profileName "file" W))
  = ["failed to create file for " ++ profileName ++ " profile: " ++ err] /\
  logged (world (newWriter profileName "file" W))
  = (logged (snd (Os.TempFile (Os.Base (args0 W) ++ "." ++ profileName ++ ".prof.") W))
     ++ [("failed to create file for " ++ profileName ++ " profile: " ++ err)%string])%list /\
  forall s,
    writerFactory s = (fun name out => forget (newWriter name out)) ->
    output s = "file" ->
    capture_calls (trace (range_profiles s [profileName] W))
    = [GetSink profileName "file" W_stderrWriter; RunEngine W_stderrWriter profileName].
Proof.
  intros Htmp.
  assert (Hnw :
    newWriter profileName "file" W
    = ((W_stderrWriter,
        snd (Log.Output
               ("failed to create file for " ++ profileName ++ " profile: " ++ err)
               (snd (Os.TempFile (Os.Base (args0 W) ++ "." ++ profileName ++ ".prof.") W)))),
       [EvTempFile (Os.Base (args0 W) ++ "." ++ profileName ++ ".prof.") (inr err);
        EvLog ("failed to create file for " ++ profileName ++ " profile: " ++ err)])).
  { unfold newWriter. change (String.eqb "file" "file") with true. cbv iota.
    unfold bind, read, call, log_Printf, ret, trace, result, world. cbn [fst snd].
    rewrite Htmp. reflexivity. }
  split; [now rewrite Hnw|]. split; [now rewrite Hnw|]. split; [now rewrite Hnw|].
  intros s Hf Hout. cbn [range_profiles].
  rewrite trace_bind, trace_bind, !capture_calls_app, profile_capture_calls.
  unfold writer, call, result, trace. cbn [fst snd capture_calls app].
  rewrite Hf, Hout. unfold forget. rewrite Hnw. reflexivity.
Qed.

Lemma tempfile_failure_falls_back_to_stderr_witness :
  result (newWriter "heap" "file" W_tmp_readonly) = W_stderrWriter /\
  log_calls (trace (newWriter "heap" "file" W_tmp_readonly))
  = ["failed to create file for heap profile: open /tmp: permission denied"].
Proof.
  destruct (tempfile_failure_falls_back_to_stderr "heap" W_tmp_readonly
              "open /tmp: permission denied" eq_refl) as [Hr [Hl _]].
  split; [exact Hr|exact Hl].
Defined.

(** C7. For every profile name, mode stdout gives the wrapper of
    standard output and mode stderr the wrapper of standard error, with
    no effect and no call; their [Write] is that of the stream, their
    [Close] answers nil and changes nothing, so the stream stays open.
    Any mode other than stdout, stderr and file, the empty one
    included, is handled as stderr. *)
Theorem newWriter_std_streams (profileName : string) (W : World) :
  newWriter profileName "stdout" W = ((W_stdoutWriter, W), []) /\
  newWriter profileName "stderr" W = ((W_stderrWriter, W), []) /\
  (forall p, WriteCloser_Write W_stdoutWriter p W = Os.File_Write Os.Stdout p W) /\
  (forall p, WriteCloser_Write W_stderrWriter p W = Os.File_Write Os.Stderr p W) /\
  WriteCloser_Close W_stdoutWriter W = (None, W) /\
  WriteCloser_Close W_stderrWriter W = (None, W) /\
  newWriter profileName EmptyString W = newWriter profileName "stderr" W /\
  forall output,
    output <> "stdout" -> output <> "stderr" -> output <> "file" ->
    newWriter profileName output W = newWriter profileName "stderr" W.
Proof.
  repeat split.
  intros output H1 H2 H3. unfold newWriter.
  apply String.eqb_neq in H1, H2, H3. rewrite H1, H2, H3. reflexivity.
Qed.

Lemma newWriter_std_streams_witness :
  newWriter "blups" "whatever" W0 = newWriter "blups" "stderr" W0.
Proof.
  apply (newWriter_std_streams "blups" W0); discriminate.
Defined.

(** ** The scenarios of the package's tests *)

(** Two lists, an output mode of no known name, then SIGUSR1, SIGUSR2 and
    SIGHUP and the close: four captures, in order, and the loop returns. *)
Example stubs_scenario :
  let s := stub_sigprof testProfiler (chan_of [SIGUSR1; SIGUSR2; SIGHUP] Closed) in
  result (loop s 4 W0) = Returned /\
  capture_calls (trace (loop s 4 W0))
  = attempts "orange" ["foo"; "bar"; "baz"; "quux"]
      [bufferCloser 0; bufferCloser 1; bufferCloser 2; bufferCloser 3].
Proof. split; reflexivity. Qed.

(** A profiler that always fails, on a file sink: the file is gone and
    the handle is closed, so that a further [Close] fails. *)
Example write_profiler_err_scenario :
  let s := stub_sigprof errorProfiler (chan_of [] Closed) in
  let W := world (profile s "blops" (W_File cpu_file) (with_open_file cpu_file W0)) in
  Os.exists_path (Name cpu_file) W = false /\
  fst (Os.File_Close cpu_file W) = Some "file already closed".
Proof. split; reflexivity. Qed.

(** A cpu profile with the default configuration: the capture leaves the
    file open and the goroutine queued; once the goroutine has run, thirty
    seconds later, the profile is stopped and the file closed. *)
Example cpu_scenario :
  let s := default_sigprof (chan_of [SIGUSR1] Closed) in
  let W1 := world (profile s "cpu" (W_File cpu_file) (with_open_file cpu_file W0)) in
  let W2 := world (run_next W1) in
  Os.is_open (fd cpu_file) W1 = true /\
  cpu W1 = Some (W_File cpu_file) /\
  now W1 = 0%Z /\
  Os.is_open (fd cpu_file) W2 = false /\
  cpu W2 = None /\
  now W2 = (30 * Time.Second)%Z /\
  logged W2 = ["cpu profile complete"].
Proof. repeat split. Qed.

(** * Further properties *)

(** ** Splitting the configured lists *)

Lemma strings_Split_not_nil s sep : strings_Split s sep <> [].
Proof.
  destruct s as [|c r]; cbn [strings_Split]; [discriminate|].
  destruct (Ascii.eqb c sep); [discriminate|].
  destruct (strings_Split r sep); discriminate.
Qed.

Lemma strings_Split_length s sep :
  length (strings_Split s sep) = S (strings_Count s sep).
Proof.
  induction s as [|c r IH]; [reflexivity|].
  cbn [strings_Split strings_Count].
  destruct (Ascii.eqb c sep).
  - cbn [length]. now rewrite IH.
  - destruct (strings_Split r sep) as [|piece pieces] eqn:Hs.
    + now destruct (strings_Split_not_nil r sep).
    + cbn [length] in *. exact IH.
Qed.

Lemma strings_Split_join s sep :
  String.concat (String sep EmptyString) (strings_Split s sep) = s.
Proof.
  induction s as [|c r IH]; [reflexivity|].
  cbn [strings_Split].
  destruct (Ascii.eqb_spec c sep) as [->|Hne].
  - destruct (strings_Split r sep) as [|piece pieces] eqn:Hs.
    + now destruct (strings_Split_not_nil r sep).
    + cbn [String.concat] in *. rewrite IH. reflexivity.
  - destruct (strings_Split r sep) as [|piece pieces] eqn:Hs.
    + now destruct (strings_Split_not_nil r sep).
    + cbn [String.concat] in *. destruct pieces as [|p2 ps].
      * now rewrite IH.
      * rewrite <- IH. reflexivity.
Qed.

Lemma strings_Split_pieces s sep :
  Forall (fun piece => strings_Count piece sep = 0) (strings_Split s sep).
Proof.
  induction s as [|c r IH]; cbn [strings_Split].
  - repeat constructor.
  - destruct (Ascii.eqb c sep) eqn:Hc.
    + constructor; [reflexivity|exact IH].
    + destruct (strings_Split r sep) as [|piece pieces].
      * constructor; [|constructor]. cbn [strings_Count]. now rewrite Hc.
      * inversion IH as [|? ? Hp Hps]; subst. constructor; [|exact Hps].
        cbn [strings_Count]. now rewrite Hc, Hp.
Qed.

(** ** The configuration read from the environment *)

(** X1. Whatever the environment, joining the entries of each list with
    commas gives back the value of its variable, or the default name when
    the variable is empty: no entry is trimmed, reordered or dropped, an
    empty entry included. *)
Theorem newSigprof_lists_join (getenv : Environ) (sent : nat -> option Relayed) :
  let s := newSigprof getenv sent in
  String.concat "," (usr1 s) = or_default (getenv "SIGPROF_USR1") "goroutine" /\
  String.concat "," (usr2 s) = or_default (getenv "SIGPROF_USR2") "heap".
Proof.
  split; apply strings_Split_join.
Qed.

(** X2. Each list has one entry more than its variable has commas, so it
    is never empty, and no entry contains a comma. *)
Theorem newSigprof_lists_count (getenv : Environ) (sent : nat -> option Relayed) :
  let s := newSigprof getenv sent in
  length (usr1 s) = S (strings_Count (getenv "SIGPROF_USR1") ","%char) /\
  length (usr2 s) = S (strings_Count (getenv "SIGPROF_USR2") ","%char) /\
  usr1 s <> [] /\ usr2 s <> [] /\
  Forall (fun name => strings_Count name ","%char = 0) (usr1 s) /\
  Forall (fun name => strings_Count name ","%char = 0) (usr2 s).
Proof.
  cbn zeta. unfold newSigprof. cbn [usr1 usr2].
  repeat split;
    try apply strings_Split_not_nil; try apply strings_Split_pieces.
  - rewrite strings_Split_length.
    destruct (String.eqb_spec (getenv "SIGPROF_USR1") EmptyString) as [->|]; reflexivity.
  - rewrite strings_Split_length.
    destruct (String.eqb_spec (getenv "SIGPROF_USR2") EmptyString) as [->|]; reflexivity.
Qed.

(** X3. When SIGPROF_OUT is set to something other than file and stdout,
    the sink of every capture is the stderr wrapper, and obtaining it
    changes nothing in the process. *)
Theorem newSigprof_other_output_is_stderr
  (getenv : Environ) (sent : nat -> option Relayed) (profileName : string) (W : World) :
  getenv "SIGPROF_OUT" <> EmptyString ->
  getenv "SIGPROF_OUT" <> "file" ->
  getenv "SIGPROF_OUT" <> "stdout" ->
  writer (newSigprof getenv sent) profileName W
  = ((W_stderrWriter, W),
     [EvWriterFactory profileName (getenv "SIGPROF_OUT") W_stderrWriter]).
Proof.
  intros H0 H1 H2. apply String.eqb_neq in H0, H1, H2.
  unfold writer, call, newSigprof. cbn [writerFactory output].
  rewrite H0. unfold forget, newWriter. rewrite H1, H2.
  destruct (String.eqb (getenv "SIGPROF_OUT") "stderr"); reflexivity.
Qed.

Lemma newSigprof_other_output_is_stderr_witness :
  writer (newSigprof (environ_of [("SIGPROF_OUT", "sdterr")]) (fun _ => None)) "heap" W0
  = ((W_stderrWriter, W0), [EvWriterFactory "heap" "sdterr" W_stderrWriter]).
Proof.
  apply (newSigprof_other_output_is_stderr
           (environ_of [("SIGPROF_OUT", "sdterr")]) (fun _ => None) "heap" W0);
    discriminate.
Defined.

(** ** The loop on the channel of [newSigChan] *)

Lemma status_after_newSigChan sent W fuel : forall k,
  status_after (fst (newSigChan sent W)) k fuel <> Returned.
Proof.
  induction fuel as [|fuel IH]; intros k; cbn [status_after]; [discriminate|].
  cbn [newSigChan fst] in *. destruct (sent k); [apply IH|discriminate].
Qed.

Lemma received_newSigChan sent W fuel : forall k,
  Forall (fun sig => sig = SIGUSR1 \/ sig = SIGUSR2)
         (received (fst (newSigChan sent W)) k fuel).
Proof.
  induction fuel as [|fuel IH]; intros k; cbn [received]; [constructor|].
  cbn [newSigChan fst] in *. destruct (sent k) as [r|]; [|constructor].
  constructor; [|apply IH]. destruct r; [left|right]; reflexivity.
Qed.

(** X4. On the channel of [newSigChan] the loop never returns, however
    long it runs, whatever the factory and the profiler do; and every
    signal it receives is SIGUSR1 or SIGUSR2. *)
Theorem loop_on_newSigChan_never_returns
  (s : sigprof) (sent : nat -> option Relayed) (fuel : nat) (W : World) :
  sigChanFactory s = newSigChan sent ->
  result (loop s fuel W) <> Returned /\
  Forall (fun sig => sig = SIGUSR1 \/ sig = SIGUSR2)
         (received (fst (sigChanFactory s W)) 0 fuel).
Proof.
  intros Hc. split.
  - unfold loop. rewrite result_bind.
    destruct (loop_from_spec s (result (call (fun _ => EvSigChanFactory)
                                          (sigChanFactory s) W))
                fuel 0 (world (call (fun _ => EvSigChanFactory)
                                 (sigChanFactory s) W))) as [Hr _].
    rewrite Hr. unfold call, result. cbn [fst]. rewrite Hc.
    apply status_after_newSigChan.
  - rewrite Hc. apply received_newSigChan.
Qed.

Lemma loop_on_newSigChan_never_returns_witness :
  result (loop (newSigprof (environ_of []) (fun k => if Nat.ltb k 2 then Some RelayedUSR1 else None))
               5 W0) <> Returned.
Proof.
  apply (loop_on_newSigChan_never_returns
           (newSigprof (environ_of [])
              (fun k => if Nat.ltb k 2 then Some RelayedUSR1 else None))
           (fun k => if Nat.ltb k 2 then Some RelayedUSR1 else None) 5 W0 eq_refl).
Defined.

(** ** Temporary files and descriptors *)

#[local] Arguments Os.tempfile_name : simpl never.

Lemma tempfile_name_fresh tries : forall seed prefix W seed' name,
  Os.tempfile_name tries seed prefix W = Some (seed', name) ->
  Os.exists_path name W = false /\ exists k, name = prefix ++ Os.itoa k.
Proof.
  induction tries as [|tries IH]; intros seed prefix W seed' name H.
  - discriminate.
  - unfold Os.tempfile_name in H; fold Os.tempfile_name in H.
    destruct (Os.exists_path (prefix ++ Os.itoa seed) W) eqn:Hex.
    + exact (IH _ _ _ _ _ H).
    + injection H as _ <-. split; [exact Hex|]. now exists seed.
Qed.

Lemma fresh_fd_above W :
  Forall (fun e => fst e < Os.fresh_fd W) (fdtable W).
Proof.
  unfold Os.fresh_fd.
  induction (fdtable W) as [|e l IH]; [constructor|].
  cbn [map fold_right]. constructor.
  - lia.
  - eapply Forall_impl; [|exact IH]. cbn beta. intros a Ha. lia.
Qed.

Lemma filter_fd_fresh n p (l : list (nat * string)) :
  Forall (fun e => fst e < n) l ->
  filter (fun e => negb (Nat.eqb (fst e) n)) (l ++ [(n, p)]) = l.
Proof.
  intros Hl. rewrite filter_app. cbn [filter fst]. rewrite Nat.eqb_refl.
  cbn [negb]. rewrite app_nil_r.
  induction Hl as [|e l He Hl IH]; [reflexivity|].
  cbn [filter]. destruct (Nat.eqb_spec (fst e) n); [lia|].
  cbn [negb]. now rewrite IH.
Qed.




Lemma existsb_path_fresh p c (l : list (string * string)) :
  existsb (fun e => String.eqb (fst e) p) (l ++ [(p, c)]) = true.
Proof.
  rewrite existsb_app. cbn [existsb fst]. rewrite String.eqb_refl.
  now rewrite orb_true_r.
Qed.


(** What a successful [TempFile] leaves behind. *)
Lemma TempFile_success pattern W f :
  fst (Os.TempFile pattern W) = inl f ->
  fd f = Os.fresh_fd W /\
  Os.exists_path (Name f) W = false /\
  (exists k, Name f = ("/tmp/" ++ pattern) ++ Os.itoa k) /\
  files (snd (Os.TempFile pattern W)) = (files W ++ [(Name f, EmptyString)])%list /\
  fdtable (snd (Os.TempFile pattern W)) = (fdtable W ++ [(fd f, Name f)])%list /\
  logged (snd (Os.TempFile pattern W)) = logged W /\
  registry (snd (Os.TempFile pattern W)) = registry W /\
  cpu (snd (Os.TempFile pattern W)) = cpu W /\
  goroutines (snd (Os.TempFile pattern W)) = goroutines W.
Proof.
  unfold Os.TempFile. destruct (tmp_writable W); [|discriminate].
  destruct (Os.tempfile_name Os.tempfile_tries (tmp_seed W) ("/tmp/" ++ pattern) W)
    as [[seed' name]|] eqn:Hn; [|discriminate].
  cbn [fst snd]. intros Hf. injection Hf as <-. cbn [fd Name].
  destruct (tempfile_name_fresh _ _ _ _ _ _ Hn) as [Hex Hk].
  repeat split; assumption.
Qed.


(** ** Captures with the package's own factory and profiler *)



Lemma writer_own s name W :
  writerFactory s = (fun name out => forget (newWriter name out)) ->
  writer s name W
  = ((result (newWriter name (output s) W), world (newWriter name (output s) W)),
     [EvWriterFactory name (output s) (result (newWriter name (output s) W))]).
Proof.
  intros Hwf. unfold writer, call. rewrite Hwf. unfold forget, result, world.
  now destruct (newWriter name (output s) W) as [[w W1] t].
Qed.



(** The fields [Close] and [Remove] act on, whatever they answer. *)
Lemma filter_fd_absent n (l : list (nat * string)) :
  existsb (fun e => Nat.eqb (fst e) n) l = false ->
  filter (fun e => negb (Nat.eqb (fst e) n)) l = l.
Proof.
  induction l as [|e l IH]; [reflexivity|].
  cbn [existsb filter]. intros H. apply orb_false_iff in H as [He Hl].
  rewrite He. cbn [negb]. now rewrite IH.
Qed.

Lemma filter_path_absent p (l : list (string * string)) :
  existsb (fun e => String.eqb (fst e) p) l = false ->
  filter (fun e => negb (String.eqb (fst e) p)) l = l.
Proof.
  induction l as [|e l IH]; [reflexivity|].
  cbn [existsb filter]. intros H. apply orb_false_iff in H as [He Hl].
  rewrite He. cbn [negb]. now rewrite IH.
Qed.

Lemma fdtable_File_Close f W :
  fdtable (snd (Os.File_Close f W))
  = filter (fun e => negb (Nat.eqb (fst e) (fd f))) (fdtable W).
Proof.
  unfold Os.File_Close, Os.is_open.
  destruct (existsb _ (fdtable W)) eqn:Hopen; [reflexivity|].
  cbn [snd]. symmetry. now apply filter_fd_absent.
Qed.

Lemma files_Remove p W :
  files (snd (Os.Remove p W))
  = filter (fun e => negb (String.eqb (fst e) p)) (files W).
Proof.
  unfold Os.Remove, Os.exists_path.
  destruct (existsb _ (files W)) eqn:Hex; [reflexivity|].
  cbn [snd]. symmetry. now apply filter_path_absent.
Qed.

Lemma fdtable_File_Write f data W :
  fdtable (snd (Os.File_Write f data W)) = fdtable W.
Proof. unfold Os.File_Write. now destruct (Os.path_of (fd f) W). Qed.

Lemma fdtable_Write w data W :
  fdtable (snd (WriteCloser_Write w data W)) = fdtable W.
Proof. destruct w; try reflexivity; apply fdtable_File_Write. Qed.

(** The world a failed capture on a file sink ends in, field by field. *)
Lemma profile_failed_file_fields s profileName f W e :
  engine_result s profileName (W_File f) W = Some e ->
  let W2 := snd (writeProfile (fst (profilerFactory s W)) (W_File f) profileName
                   (snd (profilerFactory s W))) in
  let r := profile s profileName (W_File f) W in
  files (world r) = filter (fun x => negb (String.eqb (fst x) (Name f))) (files W2) /\
  fdtable (world r) = filter (fun x => negb (Nat.eqb (fst x) (fd f))) (fdtable W2) /\
  cpu (world r) = cpu W2 /\
  goroutines (world r) = goroutines W2.
Proof.
  unfold engine_result. intros He. run_profile.
  destruct (writeProfile _ (W_File f) profileName _) as [err W2].
  cbn [fst] in He. subst err. cbn [fst snd].
  match goal with
  | |- context [Os.File_Close f ?X] => set (W3 := X)
  end.
  assert (H3 : files W3 = files W2 /\ fdtable W3 = fdtable W2
               /\ cpu W3 = cpu W2 /\ goroutines W3 = goroutines W2)
    by (repeat split).
  clearbody W3. destruct H3 as [Hf3 [Hd3 [Hc3 Hg3]]].
  pose proof (fdtable_File_Close f W3) as Hd4.
  pose proof (files_after_close f W3) as Hf4.
  assert (Hc4 : cpu (snd (Os.File_Close f W3)) = cpu W3)
    by (unfold Os.File_Close; now destruct (Os.is_open (fd f) W3)).
  assert (Hg4 : goroutines (snd (Os.File_Close f W3)) = goroutines W3)
    by (unfold Os.File_Close; now destruct (Os.is_open (fd f) W3)).
  destruct (Os.File_Close f W3) as [cerr W4]. cbn [fst snd] in *.
  destruct cerr as [ce|]; cbn [fst snd];
    match goal with
    | |- context [Os.Remove (Name f) ?X] => set (W5 := X)
    end;
    (assert (H5 : files W5 = files W4 /\ fdtable W5 = fdtable W4
                  /\ cpu W5 = cpu W4 /\ goroutines W5 = goroutines W4)
      by (repeat split));
    clearbody W5; destruct H5 as [Hf5 [Hd5 [Hc5 Hg5]]];
    pose proof (files_Remove (Name f) W5) as Hf6;
    pose proof (fdtable_after_remove (Name f) W5) as Hd6;
    (assert (Hc6 : cpu (snd (Os.Remove (Name f) W5)) = cpu W5)
      by (unfold Os.Remove; now destruct (Os.exists_path (Name f) W5)));
    (assert (Hg6 : goroutines (snd (Os.Remove (Name f) W5)) = goroutines W5)
      by (unfold Os.Remove; now destruct (Os.exists_path (Name f) W5)));
    destruct (Os.Remove (Name f) W5) as [rerr W6]; cbn [fst snd] in *;
    destruct rerr; cbn [fst snd Log.Output set_logged files fdtable cpu goroutines];
    repeat split; congruence.
Qed.

Lemma profile_world_success s profileName w W :
  engine_result s profileName w W = None ->
  let W2 := snd (writeProfile (fst (profilerFactory s W)) w profileName
                   (snd (profilerFactory s W))) in
  world (profile s profileName w W)
  = (if String.eqb profileName "cpu" then W2 else snd (WriteCloser_Close w W2)).
Proof.
  unfold engine_result. intros He. run_profile.
  destruct (writeProfile _ w profileName _) as [err W2].
  cbn [fst] in He. subst err. cbn [fst snd].
  destruct (String.eqb profileName "cpu"); reflexivity.
Qed.

Lemma profile_world_failed_nonfile s profileName w W e :
  is_File w = false ->
  engine_result s profileName w W = Some e ->
  let W3 := snd (Log.Output ("failed to write " ++ profileName ++ " profile: " ++ e)
                   (snd (writeProfile (fst (profilerFactory s W)) w profileName
                           (snd (profilerFactory s W))))) in
  world (profile s profileName w W)
  = (if String.eqb profileName "cpu" then W3 else snd (WriteCloser_Close w W3)).
Proof.
  unfold engine_result. intros Hw He. run_profile.
  destruct (writeProfile _ w profileName _) as [err W2].
  cbn [fst] in He. subst err. cbn [fst snd].
  destruct w; try discriminate; destruct (String.eqb profileName "cpu"); reflexivity.
Qed.

Lemma fdtable_Close_nonfile w W :
  is_File w = false -> fdtable (snd (WriteCloser_Close w W)) = fdtable W.
Proof. destruct w; try discriminate; reflexivity. Qed.

(** The package's profiler, for a profile other than cpu, leaves the
    descriptors, the CPU profile and the goroutines alone. *)
Lemma pprofiler_pit_fields w profileName W :
  String.eqb profileName "cpu" = false ->
  let r := pprofiler_writeProfile w profileName W in
  fdtable (world r) = fdtable W /\
  cpu (world r) = cpu W /\
  goroutines (world r) = goroutines W.
Proof.
  intros Hne. unfold pprofiler_writeProfile. rewrite Hne.
  unfold bind, call, ret, result, world, Pprof.Lookup, Pprof.WriteTo. cbn [fst snd].
  destruct (find _ (registry W)) as [pr|]; cbn [fst snd]; [|repeat split].
  destruct w as [| |f|o]; cbn [WriteCloser_Write].
  all: unfold stderrWriter_Write, stdoutWriter_Write, Os.File_Write.
  all: try destruct (Os.path_of _ W).
  all: repeat split.
Qed.

Lemma profile_own_pit_fdtable s profileName w W :
  profilerFactory s = newProfiler ->
  String.eqb profileName "cpu" = false ->
  fdtable (world (profile s profileName w W))
  = match w with
    | W_File f => filter (fun x => negb (Nat.eqb (fst x) (fd f))) (fdtable W)
    | _ => fdtable W
    end.
Proof.
  intros Hp Hne.
  destruct (pprofiler_pit_fields w profileName W Hne) as [Hfd _].
  assert (Hres : engine_result s profileName w W
                 = result (pprofiler_writeProfile w profileName W))
    by (apply engine_result_pprofiler; exact Hp).
  assert (HW2 : snd (writeProfile (fst (profilerFactory s W)) w profileName
                       (snd (profilerFactory s W)))
                = world (pprofiler_writeProfile w profileName W))
    by (rewrite Hp; reflexivity).
  destruct (result (pprofiler_writeProfile w profileName W)) as [e|] eqn:Hr.
  - destruct (is_File w) eqn:Hw.
    + destruct w as [| |f|o]; try discriminate.
      destruct (profile_failed_file_fields s profileName f W e Hres) as [_ [Hd _]].
      rewrite Hd, HW2, Hfd. reflexivity.
    + rewrite (profile_world_failed_nonfile s profileName w W e Hw Hres), Hne.
      rewrite (fdtable_Close_nonfile _ _ Hw).
      cbn [Log.Output snd set_logged fdtable]. rewrite HW2, Hfd.
      destruct w; try discriminate; reflexivity.
  - rewrite (profile_world_success s profileName w W Hres), Hne, HW2.
    destruct w as [| |f|o]; cbn [WriteCloser_Close]; try exact Hfd.
    rewrite fdtable_File_Close, Hfd. reflexivity.
Qed.

Lemma TempFile_failure pattern W e :
  fst (Os.TempFile pattern W) = inr e -> snd (Os.TempFile pattern W) = W.
Proof.
  unfold Os.TempFile. destruct (tmp_writable W); [|reflexivity].
  destruct (Os.tempfile_name _ _ _ W) as [[seed' name]|]; [discriminate|reflexivity].
Qed.

(** The sink [newWriter] hands out and the descriptors: a file sink has
    a descriptor of its own, added to the table; any other sink adds
    none. *)
Lemma newWriter_fdtable profileName out W :
  match result (newWriter profileName out W) with
  | W_File f =>
      fdtable (world (newWriter profileName out W)) = (fdtable W ++ [(fd f, Name f)])%list /\
      Forall (fun e => fst e < fd f) (fdtable W)
  | _ => fdtable (world (newWriter profileName out W)) = fdtable W
  end.
Proof.
  unfold newWriter. destruct (String.eqb out "file").
  - unfold bind, read, call, log_Printf, ret, trace, result, world. cbn [fst snd].
    destruct (fst (Os.TempFile _ W)) as [f|e] eqn:Htmp; cbn [fst snd].
    + destruct (TempFile_success _ _ _ Htmp) as [Hfd [_ [_ [_ [Hfds _]]]]].
      split; [exact Hfds|]. rewrite Hfd. apply fresh_fd_above.
    + cbn [Log.Output snd set_logged fdtable].
      now rewrite (TempFile_failure _ _ _ Htmp).
  - destruct (String.eqb out "stdout"); [reflexivity|].
    destruct (String.eqb out "stderr"); reflexivity.
Qed.

Lemma pit_captures_leak_no_descriptor_aux (s : sigprof) (names : list string) :
  own_factories s ->
  Forall (fun name => name <> "cpu") names ->
  forall W, fdtable (world (range_profiles s names W)) = fdtable W.
Proof.
  intros [Hwf Hpf] Hnames.
  induction Hnames as [|name rest Hne _ IH]; intros W; [reflexivity|].
  apply String.eqb_neq in Hne.
  cbn [range_profiles]. rewrite world_bind, world_bind, IH.
  rewrite (writer_own s name W Hwf). cbn [result world fst snd].
  rewrite (profile_own_pit_fdtable s name _ _ Hpf Hne).
  pose proof (newWriter_fdtable name (output s) W) as Hnw.
  destruct (result (newWriter name (output s) W)) as [| |f|o]; try exact Hnw.
  destruct Hnw as [Hfds Habove]. rewrite Hfds.
  now apply filter_fd_fresh.
Qed.

(** X6. With the package's own factory and profiler, in any output mode,
    handling a list of profiles none of which is cpu leaves the table of
    open descriptors exactly as it was, whether the captures succeed or
    fail: no descriptor leaks. *)
Theorem pit_captures_leak_no_descriptor (s : sigprof) (names : list string) :
  own_factories s ->
  Forall (fun name => name <> "cpu") names ->
  forall W, fdtable (world (range_profiles s names W)) = fdtable W.
Proof. exact (pit_captures_leak_no_descriptor_aux s names). Qed.

Lemma pit_captures_leak_no_descriptor_witness :
  fdtable (world (range_profiles (default_sigprof (chan_of [] Closed))
                    ["goroutine"; "mutex"; "heap"] W0))
  = fdtable W0.
Proof.
  apply (pit_captures_leak_no_descriptor
           (default_sigprof (chan_of [] Closed)) ["goroutine"; "mutex"; "heap"]
           (conj eq_refl eq_refl)).
  repeat constructor; discriminate.
Defined.





(** ** One CPU profile at a time *)

Lemma pprofiler_cpu_busy w W w0 :
  cpu W = Some w0 ->
  pprofiler_writeProfile w "cpu" W
  = ((Some "failed to start CPU profiling: cpu profiling already in use", W),
     [EvStartCPUProfile w (Some "cpu profiling already in use")]).
Proof.
  intros Hcpu. unfold pprofiler_writeProfile. rewrite String.eqb_refl.
  unfold cpuProfile, bind, call, ret, trace, result, world, Pprof.StartCPUProfile.
  rewrite Hcpu. reflexivity.
Qed.

(** X8. While a CPU profile is running, a capture of the cpu profile by
    the package's profiler fails at once with the error of the start:
    the running profile keeps its sink, no goroutine is started, and the
    dispatcher closes the new sink only if it is a file (which it then
    removes). *)
Theorem cpu_capture_refused_while_running
  (s : sigprof) (w w0 : WriteCloser) (W : World) :
  profilerFactory s = newProfiler ->
  cpu W = Some w0 ->
  let r := profile s "cpu" w W in
  engine_result s "cpu" w W
  = Some "failed to start CPU profiling: cpu profiling already in use" /\
  cpu (world r) = Some w0 /\
  goroutines (world r) = goroutines W /\
  cleanup_calls (trace r)
  = match w with
    | W_File f => [DoClose w; DoRemove (Name f)]
    | _ => []
    end.
Proof.
  intros Hp Hcpu r.
  pose proof (pprofiler_cpu_busy w W w0 Hcpu) as Heng.
  assert (Hres : engine_result s "cpu" w W
                 = Some "failed to start CPU profiling: cpu profiling already in use").
  { rewrite (engine_result_pprofiler s "cpu" w W Hp), Heng. reflexivity. }
  assert (HW2 : snd (writeProfile (fst (profilerFactory s W)) w "cpu"
                       (snd (profilerFactory s W))) = W).
  { rewrite Hp. cbn [newProfiler fst snd pprofiler writeProfile].
    unfold forget. now rewrite Heng. }
  split; [exact Hres|].
  destruct (is_File w) eqn:Hw.
  - destruct w as [| |f|o]; try discriminate.
    destruct (profile_failed_file_fields s "cpu" f W _ Hres) as [_ [_ [Hc Hg]]].
    destruct (profile_failed_file s "cpu" f W _ Hres) as [Hcl _].
    subst r. rewrite Hc, Hg, HW2. repeat split; assumption.
  - subst r.
    rewrite (profile_world_failed_nonfile s "cpu" w W _ Hw Hres), HW2.
    change (String.eqb "cpu" "cpu") with true. cbv iota.
    cbn [Log.Output snd set_logged cpu goroutines].
    split; [exact Hcpu|]. split; [reflexivity|].
    revert Hres. unfold engine_result. run_profile.
    destruct (writeProfile _ w "cpu" _) as [err W2']. cbn [fst snd].
    intros ->. destruct w; try discriminate; reflexivity.
Qed.

Lemma cpu_capture_refused_while_running_witness :
  let r := profile (default_sigprof (chan_of [] Closed)) "cpu" (W_File cpu_file)
             W_cpu_busy in
  cpu (world r) = Some (bufferCloser 9) /\
  goroutines (world r) = [] /\
  cleanup_calls (trace r) = [DoClose (W_File cpu_file); DoRemove (Name cpu_file)].
Proof.
  destruct (cpu_capture_refused_while_running
              (default_sigprof (chan_of [] Closed)) (W_File cpu_file) (bufferCloser 9)
              W_cpu_busy eq_refl eq_refl) as [_ [Hc [Hg Hcl]]].
  repeat split; assumption.
Defined.

Lemma cpu_Close w W : cpu (snd (WriteCloser_Close w W)) = cpu W.
Proof.
  destruct w as [| |f|o]; try reflexivity.
  cbn [WriteCloser_Close]. unfold Os.File_Close. now destruct (Os.is_open (fd f) W).
Qed.

Lemma cpu_StopCPUProfile W : cpu (snd (Pprof.StopCPUProfile W)) = None.
Proof.
  unfold Pprof.StopCPUProfile. destruct (cpu W) as [w|] eqn:Hc; [reflexivity|exact Hc].
Qed.

Lemma cpuProfile_func1_releases w W :
  cpu (world (cpuProfile_func1 w W)) = None.
Proof.
  unfold cpuProfile_func1, log_Println, bind, call, read, ret, trace, result, world.
  cbn [fst snd].
  match goal with
  | |- context [Pprof.StopCPUProfile ?X] => set (W2 := X)
  end.
  clearbody W2.
  pose proof (cpu_StopCPUProfile W2) as H3.
  destruct (Pprof.StopCPUProfile W2) as [[] W3]. cbn [fst snd] in *.
  pose proof (cpu_Close w W3) as H4.
  destruct (WriteCloser_Close w W3) as [[e|] W4]; cbn [fst snd] in *;
    cbn [Log.Output snd set_logged cpu]; congruence.
Qed.

(** X9. Once the goroutine of a cpu profile has run, no CPU profile is
    running any more, whatever [Close] answered; a capture of the cpu
    profile by the package's profiler made after it starts with
    success. *)
Theorem cpu_goroutine_frees_the_profiler (w : WriteCloser) (W : World) :
  let W' := world (run_goroutine (G_cpuProfile_func1 w) W) in
  cpu W' = None /\
  forall s w',
    profilerFactory s = newProfiler ->
    engine_result s "cpu" w' W' = None /\
    cpu (world (profile s "cpu" w' W')) = Some w'.
Proof.
  cbn zeta. cbn [run_goroutine].
  pose proof (cpuProfile_func1_releases w W) as Hrel.
  split; [exact Hrel|]. intros s w' Hp.
  set (W' := world (cpuProfile_func1 w W)) in *.
  assert (Heng : pprofiler_writeProfile w' "cpu" W'
                 = ((None, set_goroutines (goroutines W' ++ [G_cpuProfile_func1 w'])
                             (set_cpu (Some w') W')),
                    [EvStartCPUProfile w' None; EvGo (G_cpuProfile_func1 w')])).
  { unfold pprofiler_writeProfile. rewrite String.eqb_refl.
    unfold cpuProfile, bind, call, ret, trace, result, world, Pprof.StartCPUProfile, go.
    rewrite Hrel. reflexivity. }
  assert (Hres : engine_result s "cpu" w' W' = None).
  { rewrite (engine_result_pprofiler s "cpu" w' W' Hp), Heng. reflexivity. }
  split; [exact Hres|].
  rewrite (profile_world_success s "cpu" w' W' Hres).
  change (String.eqb "cpu" "cpu") with true. cbv iota.
  rewrite Hp. cbn [newProfiler fst snd pprofiler writeProfile].
  unfold forget. rewrite Heng. reflexivity.
Qed.

(** ** What [profile] logs and keeps *)

(** X10. Whatever the profiler and the sink, when the profiler returns
    an error the first thing [profile] logs is the name of the profile
    with that error; it logs at most two more lines, for a failed
    [Close] and a failed [Remove] of a file sink. *)
Theorem failed_capture_is_logged
  (s : sigprof) (profileName : string) (w : WriteCloser) (W : World) (e : error) :
  engine_result s profileName w W = Some e ->
  let r := profile s profileName w W in
  hd_error (log_calls (trace r))
  = Some ("failed to write " ++ profileName ++ " profile: " ++ e) /\
  length (log_calls (trace r)) <= 3 /\
  (is_File w = false -> length (log_calls (trace r)) = 1).
Proof.
  unfold engine_result. intros He. run_profile.
  destruct (writeProfile _ w profileName _) as [err W2].
  cbn [fst] in He. subst err. cbn [fst snd].
  destruct w as [| |f|o]; cbn [fst snd].
  1, 2, 4: destruct (String.eqb profileName "cpu"); simpl;
    repeat split; intros; solve [reflexivity | lia].
  match goal with
  | |- context [Os.File_Close f ?X] => destruct (Os.File_Close f X) as [[ce|] W4]
  end; cbn [fst snd];
    match goal with
    | |- context [Os.Remove (Name f) ?X] => destruct (Os.Remove (Name f) X) as [[re|] W6]
    end; simpl;
    repeat split; intros; solve [reflexivity | lia | discriminate].
Qed.

Lemma failed_capture_is_logged_witness :
  hd_error (log_calls (trace (profile (stub_sigprof errorProfiler (chan_of [] Closed))
                                "blops" (W_File cpu_file) W0)))
  = Some "failed to write blops profile: testing write failed".
Proof.
  apply (failed_capture_is_logged (stub_sigprof errorProfiler (chan_of [] Closed))
           "blops" (W_File cpu_file) W0 "testing write failed" eq_refl).
Defined.

(** X11. Whatever the profiler and the sink, after a successful capture
    [profile] removes nothing and logs nothing: its only call is the one
    [Close] of a sink that is not that of a cpu profile, and the files
    are left as the profiler left them. *)
Theorem successful_capture_keeps_the_sink
  (s : sigprof) (profileName : string) (w : WriteCloser) (W : World) :
  engine_result s profileName w W = None ->
  let W2 := snd (writeProfile (fst (profilerFactory s W)) w profileName
                   (snd (profilerFactory s W))) in
  let r := profile s profileName w W in
  cleanup_calls (trace r) = (if String.eqb profileName "cpu" then [] else [DoClose w]) /\
  log_calls (trace r) = [] /\
  files (world r) = files W2 /\
  logged (world r) = logged W2.
Proof.
  intros He W2 r.
  assert (Hworld : world r
                   = (if String.eqb profileName "cpu" then W2
                      else snd (WriteCloser_Close w W2)))
    by (apply profile_world_success; exact He).
  assert (Hfiles : files (snd (WriteCloser_Close w W2)) = files W2).
  { destruct w as [| |f|o]; try reflexivity. apply files_after_close. }
  assert (Hlogged : logged (snd (WriteCloser_Close w W2)) = logged W2).
  { destruct w as [| |f|o]; try reflexivity.
    cbn [WriteCloser_Close]. unfold Os.File_Close. now destruct (Os.is_open (fd f) W2). }
  rewrite Hworld. subst r W2.
  revert He Hfiles Hlogged. unfold engine_result. run_profile.
  destruct (writeProfile _ w profileName _) as [err W2]. cbn [fst snd].
  intros -> Hfiles Hlogged.
  destruct (String.eqb profileName "cpu"); repeat split; assumption.
Qed.

Lemma successful_capture_keeps_the_sink_witness :
  let r := profile (stub_sigprof testProfiler (chan_of [] Closed)) "foo"
             (W_File cpu_file) (with_open_file cpu_file W0) in
  cleanup_calls (trace r) = [DoClose (W_File cpu_file)] /\
  log_calls (trace r) = [] /\
  Os.exists_path (Name cpu_file) (world r) = true.
Proof.
  destruct (successful_capture_keeps_the_sink
              (stub_sigprof testProfiler (chan_of [] Closed)) "foo"
              (W_File cpu_file) (with_open_file cpu_file W0) eq_refl)
    as [Hc [Hl [Hf _]]].
  split; [exact Hc|]. split; [exact Hl|].
  unfold Os.exists_path. rewrite Hf. reflexivity.
Defined.

(** ** Every relayed signal is acted upon *)



(** ** File URLs *)

Lemma MakeFileURL_idempotent_aux input :
  Utils.MakeFileURL (Utils.MakeFileURL input) = Utils.MakeFileURL input.
Proof.
  unfold Utils.MakeFileURL at 1.
  assert (H : Utils.HasPrefix (Utils.MakeFileURL input) "/" = false).
  { unfold Utils.MakeFileURL. destruct (Utils.HasPrefix input "/") eqn:Hp.
    - reflexivity.
    - exact Hp. }
  now rewrite H.
Qed.

(** X13. [MakeFileURL] never returns a string that begins with a slash,
    so applying it twice is the same as applying it once. *)
Theorem MakeFileURL_idempotent (input : string) :
  Utils.HasPrefix (Utils.MakeFileURL input) "/" = false /\
  Utils.MakeFileURL (Utils.MakeFileURL input) = Utils.MakeFileURL input.
Proof.
  assert (H : Utils.HasPrefix (Utils.MakeFileURL input) "/" = false).
  { unfold Utils.MakeFileURL. destruct (Utils.HasPrefix input "/") eqn:Hp.
    - reflexivity.
    - exact Hp. }
  split; [exact H|].
  unfold Utils.MakeFileURL at 1. now rewrite H.
Qed.

Lemma append_file_scheme_injective x y :
  "file://" ++ x = "file://" ++ y -> x = y.
Proof. intros H. now injection H. Qed.

(** X14. On inputs that begin with a slash [MakeFileURL] prefixes the
    scheme and is one to one; an input that does not begin with a slash
    is returned as it is.  It is not one to one on all inputs: a path
    and its own URL are sent to the same URL. *)
Theorem MakeFileURL_absolute (x y : string) :
  Utils.HasPrefix x "/" = true ->
  Utils.MakeFileURL x = "file://" ++ x /\
  String.length (Utils.MakeFileURL x) = 7 + String.length x /\
  (Utils.HasPrefix y "/" = true -> Utils.MakeFileURL x = Utils.MakeFileURL y -> x = y) /\
  (Utils.HasPrefix y "/" = false -> Utils.MakeFileURL y = y) /\
  Utils.MakeFileURL (Utils.MakeFileURL x) = Utils.MakeFileURL x /\
  Utils.MakeFileURL x <> x.
Proof.
  intros Hx.
  assert (Hurl : Utils.MakeFileURL x = "file://" ++ x).
  { unfold Utils.MakeFileURL. now rewrite Hx. }
  split; [exact Hurl|]. split; [|split; [|split; [|split]]].
  - rewrite Hurl. reflexivity.
  - intros Hy Heq. unfold Utils.MakeFileURL in Heq. rewrite Hx, Hy in Heq.
    now apply append_file_scheme_injective.
  - intros Hy. unfold Utils.MakeFileURL. now rewrite Hy.
  - apply MakeFileURL_idempotent_aux.
  - rewrite Hurl. intros Heq. apply (f_equal String.length) in Heq.
    change (S (S (S (S (S (S (S (String.length x))))))) = String.length x) in Heq.
    lia.
Qed.

Lemma MakeFileURL_absolute_witness :
  Utils.MakeFileURL "/var/lib/juju" = "file:///var/lib/juju" /\
  Utils.MakeFileURL "C:/juju" = "C:/juju".
Proof.
  destruct (MakeFileURL_absolute "/var/lib/juju" "C:/juju" eq_refl)
    as [Hurl [_ [_ [Hrel _]]]].
  split; [exact Hurl|]. apply Hrel. reflexivity.
Defined.

(** ** Changing the owner of a path *)







Lemma cpu_goroutine_frees_the_profiler_witness :
  let W' := world (run_goroutine (G_cpuProfile_func1 (bufferCloser 9)) W_cpu_busy) in
  cpu W' = None /\
  engine_result (default_sigprof (chan_of [] Closed)) "cpu" (W_File cpu_file) W' = None.
Proof.
  destruct (cpu_goroutine_frees_the_profiler (bufferCloser 9) W_cpu_busy) as [Hfree Hnext].
  split; [exact Hfree|].
  apply (Hnext (default_sigprof (chan_of [] Closed)) (W_File cpu_file) eq_refl).
Defined.
